(** * TideTool: hourly sea level and high/low-tide extremes

    A shallow embedding of [src/tools/tide_tool/main.py]: the Stormglass
    request helper, the synthetic semidiurnal sine wave, the two public
    entry points with their HTTP-402 fallback, and the scan for local
    extremes, followed by the properties the specification states about
    them.  The wind forecast of [src/tools/weather_tool/main.py], the
    profile store of [src/tools/user_profile_tool/main.py] and the agent
    of [src/agent/windwizard.py] that calls the tools come after, with
    further properties of all four. *)

From Stdlib Require Import ZArith List String Ascii Bool Lia Reals Lra.
From stdpp Require Import base option list strings pretty.

Set Warnings "-register-all".

Local Open Scope string_scope.
Local Open Scope list_scope.
Local Open Scope Z_scope.

(** ** Python exceptions and results *)

(** The exceptions the module can raise.  [AssertionError] is the failed
    [assert] on the argument range (asserts are taken as enabled, the
    interpreter's default), [HTTPError] is what [raise_for_status] raises
    for a 4xx/5xx response, [RequestException] stands for the other
    failures of [requests.get] (connection error, timeout) and for a body
    that is not JSON, [OverflowError] is [datetime] arithmetic leaving the
    years 1..9999, and the remaining ones come from subscripting and
    iterating the decoded JSON body. *)
Inductive exn : Type :=
  | AssertionError (msg : string)
  | HTTPError (status_code : Z)
  | RequestException
  | OverflowError
  | KeyError (key : string)
  | TypeError
  | IndexError.

Inductive result (A : Type) : Type :=
  | Ok (a : A)
  | Raise (e : exn).
Arguments Ok {A} a.
Arguments Raise {A} e.

#[export] Instance result_ret : MRet result := fun A a => Ok a.
#[export] Instance result_bind : MBind result := fun A B k m =>
  match m with
  | Ok a => k a
  | Raise e => Raise e
  end.
#[export] Instance result_fmap : FMap result := fun A B f m =>
  match m with
  | Ok a => Ok (f a)
  | Raise e => Raise e
  end.

(** ** datetime

    An aware UTC [datetime], as [datetime.now(timezone.utc)] returns it
    and as the module passes it around, is the count of microseconds
    since 1970-01-01T00:00:00+00:00.  Python represents the years 1..9999
    only; arithmetic that leaves this range raises [OverflowError]. *)
Module datetime.

Definition t := Z.

Definition US_PER_SECOND : Z := 1000000.
Definition US_PER_HOUR : Z := 3600 * US_PER_SECOND.
Definition US_PER_DAY : Z := 24 * US_PER_HOUR.

(** [datetime.min] and [datetime.max], read as UTC. *)
Definition min : t := -62135596800000000.
Definition max : t := 253402300799999999.

Definition valid (d : t) : Prop := min <= d <= max.
Definition validb (d : t) : bool := (min <=? d) && (d <=? max).

(** [d + timedelta(microseconds = delta)] *)
Definition add (d : t) (delta : Z) : result t :=
  if validb (d + delta) then Ok (d + delta) else Raise OverflowError.

(** [timedelta(hours = h)] and [timedelta(days = n)], in microseconds. *)
Definition hours (h : Z) : Z := h * US_PER_HOUR.
Definition days (n : Z) : Z := n * US_PER_DAY.

(** [d - datetime(1970, 1, 1, tzinfo = timezone.utc)], in microseconds. *)
Definition since_epoch (d : t) : Z := d - 0.

(** The proleptic Gregorian date of a day number counted from
    1970-01-01, as (year, month, day). *)
Definition civil_from_days (n : Z) : Z * Z * Z :=
  let z := n + 719468 in
  let era := z / 146097 in
  let doe := z - era * 146097 in
  let yoe := (doe - doe / 1460 + doe / 36524 - doe / 146096) / 365 in
  let doy := doe - (365 * yoe + yoe / 4 - yoe / 100) in
  let mp := (5 * doy + 2) / 153 in
  let d := doy - (153 * mp + 2) / 5 + 1 in
  let m := if mp <? 10 then mp + 3 else mp - 9 in
  let y := yoe + era * 400 + (if m <=? 2 then 1 else 0) in
  (y, m, d).

Definition digit (n : Z) : ascii :=
  ascii_of_nat (48 + Z.to_nat (n mod 10)).

(** [n] written with exactly [w] decimal digits, zero padded. *)
Fixpoint zpad (w : nat) (n : Z) : string :=
  match w with
  | O => ""
  | S w' => zpad w' (n / 10) +:+ String (digit n) ""
  end.

Definition date_part (d : t) : string :=
  let '(y, m, dd) := civil_from_days (d / US_PER_DAY) in
  zpad 4 y +:+ "-" +:+ zpad 2 m +:+ "-" +:+ zpad 2 dd.

Definition hour_of (d : t) : Z := (d mod US_PER_DAY) / US_PER_HOUR.
Definition minute_of (d : t) : Z := (d mod US_PER_HOUR) / (60 * US_PER_SECOND).
Definition second_of (d : t) : Z := (d mod (60 * US_PER_SECOND)) / US_PER_SECOND.
Definition microsecond_of (d : t) : Z := d mod US_PER_SECOND.

(** [d.isoformat()]: the fraction is printed only when it is not zero. *)
Definition isoformat (d : t) : string :=
  date_part d +:+ "T" +:+ zpad 2 (hour_of d) +:+ ":" +:+ zpad 2 (minute_of d)
    +:+ ":" +:+ zpad 2 (second_of d)
    +:+ (if microsecond_of d =? 0 then "" else "." +:+ zpad 6 (microsecond_of d))
    +:+ "+00:00".

(** [d.strftime("%Y-%m-%d")] and [d.strftime("%Y-%m-%dT%H")].  The
    fields are printed by the C library: month, day and hour on two
    digits, and the year as [%Y] of glibc prints it, without padding.
    From the year 1000 on these are the four digits of [isoformat];
    before, [strftime] prints [999-12-31] where [isoformat] prints
    [0999-12-31]. *)
Definition strftime_date (d : t) : string :=
  let '(y, m, dd) := civil_from_days (d / US_PER_DAY) in
  pretty y +:+ "-" +:+ zpad 2 m +:+ "-" +:+ zpad 2 dd.
Definition strftime_hour (d : t) : string :=
  strftime_date d +:+ "T" +:+ zpad 2 (hour_of d).

End datetime.

(** ** Floating-point arithmetic

    The module computes on Python floats.  The operations it uses are
    gathered in an interface, so that whatever does not depend on how
    they round holds for every implementation of them. *)
Class PyFloat (F : Type) : Type := {
  (** an [int] operand converted in mixed arithmetic *)
  float_of_int : Z -> F;
  (** the decimal literal [digits * 10 ** -scale] *)
  float_literal : Z -> nat -> F;
  (** [a / b] on two integers *)
  int_truediv : Z -> Z -> F;
  fmul : F -> F -> F;
  fdiv : F -> F -> F;
  math_pi : F;
  math_sin : F -> F;
  (** [a <= b]; [a >= b] is [b <= a] *)
  fle : F -> F -> bool;
}.
(** The two divisions are total here: the module divides by one second
    and by the period only, neither of which is zero. *)

Definition fge `{PyFloat F} (a b : F) : bool := fle b a.

(** [a < b], from the comparison the code uses. *)
Definition flt `{PyFloat F} (a b : F) : bool := fle a b && negb (fle b a).

(** [timedelta.total_seconds()] of a duration given in microseconds. *)
Definition total_seconds `{PyFloat F} (us : Z) : F :=
  int_truediv us datetime.US_PER_SECOND.

(** ** Python values *)

(** [range(n)] and [range(lo, hi)]. *)
Definition range (n : Z) : list Z := Z.of_nat <$> seq 0 (Z.to_nat n).
Definition range_from (lo hi : Z) : list Z :=
  (fun k => lo + Z.of_nat k) <$> seq 0 (Z.to_nat (hi - lo)).

(** [len(l)] *)
Definition len {A} (l : list A) : Z := Z.of_nat (length l).

(** [l[:n]] *)
Definition slice_to {A} (n : Z) (l : list A) : list A :=
  if 0 <=? n then take (Z.to_nat n) l
  else take (Z.to_nat (len l + n)) l.

(** [l[i]]; a negative index counts from the end. *)
Definition index {A} (l : list A) (i : Z) : result A :=
  let j := if i <? 0 then i + len l else i in
  if j <? 0 then Raise IndexError
  else match l !! Z.to_nat j with
       | Some x => Ok x
       | None => Raise IndexError
       end.

(** The dictionary [{"time": ..., "sea_level": ...}] of two parallel lists. *)
Record tide_dict (T L : Type) : Type := {
  time : list T;
  sea_level : list L;
}.
Arguments time {T L} _.
Arguments sea_level {T L} _.

Inductive tide_type : Type := high | low.

Section Tide.

Context {F : Type} `{PyFloat F}.

(** What [json()] decodes a body to, and what the tools return. *)
Inductive value : Type :=
  | VNone
  | VBool (b : bool)
  | VInt (n : Z)
  | VFloat (x : F)
  | VStr (s : string)
  | VList (l : list value)
  | VDict (items : list (string * value)).

Fixpoint lookup_key (k : string) (items : list (string * value)) : option value :=
  match items with
  | [] => None
  | (k', v) :: rest => if String.eqb k k' then Some v else lookup_key k rest
  end.

(** [v[k]] for a string key [k]. *)
Definition getitem (v : value) (k : string) : result value :=
  match v with
  | VDict items =>
      match lookup_key k items with
      | Some x => Ok x
      | None => Raise (KeyError k)
      end
  | _ => Raise TypeError
  end.

(** The items [for row in v] runs over. *)
Definition iterate (v : value) : result (list value) :=
  match v with
  | VList l => Ok l
  | VDict items => Ok ((fun kv => VStr (fst kv)) <$> items)
  | VStr s => Ok ((fun c => VStr (String c "")) <$> list_ascii_of_string s)
  | _ => Raise TypeError
  end.

(** [[row[k] for row in rows]] *)
Fixpoint comprehension (k : string) (rows : list value) : result (list value) :=
  match rows with
  | [] => Ok []
  | row :: rest =>
      x ← getitem row k;
      xs ← comprehension k rest;
      mret (x :: xs)
  end.

(** *** The provider *)

Definition BASE_URL : string := "https://api.stormglass.io/v2/tide".

(** A GET request.  The [Authorization] header and the timeout of ten
    seconds are the same for every request and are left out. *)
Record request : Type := {
  url : string;
  params : list (string * value);
}.

(** What [requests.get] comes back with: no response at all (connection
    error, timeout), or a status and a body that decodes as JSON or not. *)
Inductive response : Type :=
  | NoResponse
  | Response (status_code : Z) (json : option value).

(** The outside of a call: the UTC clock, read once per call by
    [datetime.now], and the Stormglass service. *)
Record world : Type := {
  utc_now : datetime.t;
  stormglass : request -> response;
}.

(** A computation in a world; it yields a result or an exception, and
    the requests it has sent. *)
Definition io (A : Type) : Type := world -> result A * list request.

#[export] Instance io_ret : MRet io := fun A a _ => (Ok a, []).
#[export] Instance io_bind : MBind io := fun A B k m w =>
  match m w with
  | (Ok a, sent) => let '(r, sent') := k a w in (r, sent ++ sent')
  | (Raise e, sent) => (Raise e, sent)
  end.

Definition lift {A} (r : result A) : io A := fun _ => (r, []).
Definition raise {A} (e : exn) : io A := lift (Raise e).
Definition now_utc : io datetime.t := fun w => (Ok (utc_now w), []).
Definition send (rq : request) : io response :=
  fun w => (Ok (stormglass w rq), [rq]).

(** [assert c, msg] *)
Definition assert (c : bool) (msg : string) : io unit :=
  if c then mret tt else raise (AssertionError msg).

(** [try: body / except requests.HTTPError as e: handler] *)
Definition try_except_HTTPError {A} (body : io A) (handler : Z -> io A) : io A :=
  fun w =>
    match body w with
    | (Raise (HTTPError status), sent) =>
        let '(r, sent') := handler status w in (r, sent ++ sent')
    | other => other
    end.

(** [_request]: one GET; [raise_for_status] raises for 4xx and 5xx. *)
Definition _request (endpoint : string) (params : list (string * value)) : io value :=
  r ← send {| url := BASE_URL +:+ "/" +:+ endpoint; params := params |};
  match r with
  | NoResponse => raise RequestException
  | Response status body =>
      if (400 <=? status) && (status <? 600) then raise (HTTPError status)
      else match body with
           | Some v => mret v
           | None => raise RequestException
           end
  end.

(** *** The synthetic wave *)

(** The level the loop body computes for the instant [t]: [seconds],
    [period] and [level] of the source. *)
Definition level_at (t : datetime.t) : F :=
  let seconds := total_seconds (datetime.since_epoch t) in
  let period := fmul (float_literal 1242 2) (float_of_int 3600) in
  math_sin (fmul (fmul (float_of_int 2) math_pi) (fdiv seconds period)).

(** The loop of [_sine_wave_tide] over the remaining values of [h]. *)
Fixpoint sine_wave_loop (start_dt : datetime.t) (hs : list Z)
    (times : list string) (levels : list F) : result (tide_dict string F) :=
  match hs with
  | [] => Ok {| time := times; sea_level := levels |}
  | h :: rest =>
      t ← datetime.add start_dt (datetime.hours h);
      let level := level_at t in
      sine_wave_loop start_dt rest
        (times ++ [datetime.isoformat t]) (levels ++ [level])
  end.

Definition _sine_wave_tide (hours : Z) (start_dt : datetime.t)
    : result (tide_dict string F) :=
  sine_wave_loop start_dt (range hours) [] [].

(** *** Sea level *)

Definition as_values (tide : tide_dict string F) : tide_dict value value :=
  {| time := VStr <$> time tide; sea_level := VFloat <$> sea_level tide |}.

Definition get_tide_sea_level (lat lon : F) (hours : Z)
    : io (tide_dict value value) :=
  _ ← assert ((1 <=? hours) && (hours <=? 240)) "hours must be between 1 and 240";
  now ← now_utc;
  end_dt ← lift (datetime.add now (datetime.hours hours));
  let params :=
    [("lat", VFloat lat); ("lng", VFloat lon);
     ("start", VStr (datetime.strftime_hour now));
     ("end", VStr (datetime.strftime_hour end_dt))] in
  try_except_HTTPError
    (body ← _request "sea-level/point" params;
     data ← lift (getitem body "data");
     rows ← lift (iterate data);
     times ← lift (comprehension "time" rows);
     levels ← lift (comprehension "sg" rows);
     mret {| time := slice_to hours times; sea_level := slice_to hours levels |})
    (fun status =>
       if status =? 402 then
         tide ← lift (_sine_wave_tide hours now);
         mret (as_values tide)
       else raise (HTTPError status)).

(** *** Extremes *)

Record extreme : Type := {
  ex_time : string;
  height : F;
  type : tide_type;
}.

(** [levels[i] >= levels[j]] and [levels[i] <= levels[j]] *)
Definition ge_at (levels : list F) (i j : Z) : result bool :=
  a ← index levels i; b ← index levels j; mret (fge a b).
Definition le_at (levels : list F) (i j : Z) : result bool :=
  a ← index levels i; b ← index levels j; mret (fle a b).

(** [c1 and c2], the second operand evaluated only when needed. *)
Definition and_then (c1 c2 : result bool) : result bool :=
  b ← c1; if (b : bool) then c2 else mret false.

(** [{"time": times[i], "height": levels[i], "type": ty}] *)
Definition extreme_at (times : list string) (levels : list F) (i : Z)
    (ty : tide_type) : result extreme :=
  t ← index times i; l ← index levels i;
  mret {| ex_time := t; height := l; type := ty |}.

(** The scan of [_find_synthetic_extremes] over the remaining indices. *)
Fixpoint extremes_loop (times : list string) (levels : list F) (indices : list Z)
    (extremes : list extreme) : result (list extreme) :=
  match indices with
  | [] => Ok extremes
  | i :: rest =>
      is_high ← and_then (ge_at levels i (i - 1)) (ge_at levels i (i + 1));
      if (is_high : bool) then
        e ← extreme_at times levels i high;
        extremes_loop times levels rest (extremes ++ [e])
      else
        is_low ← and_then (le_at levels i (i - 1)) (le_at levels i (i + 1));
        if (is_low : bool) then
          e ← extreme_at times levels i low;
          extremes_loop times levels rest (extremes ++ [e])
        else extremes_loop times levels rest extremes
  end.

Definition _find_synthetic_extremes (days : Z) (start_dt : datetime.t)
    : result (list extreme) :=
  let hours := days * 24 in
  tide ← _sine_wave_tide (hours + 1) start_dt;
  let times := time tide in
  let levels := sea_level tide in
  extremes_loop times levels (range_from 1 (len levels - 1)) [].

Definition tide_type_name (ty : tide_type) : string :=
  match ty with high => "high" | low => "low" end.

Definition extreme_value (e : extreme) : value :=
  VDict [("time", VStr (ex_time e)); ("height", VFloat (height e));
         ("type", VStr (tide_type_name (type e)))].

Definition get_tide_extremes (lat lon : F) (days : Z) : io value :=
  _ ← assert ((1 <=? days) && (days <=? 10)) "days must be 1–10";
  now ← now_utc;
  end_dt ← lift (datetime.add now (datetime.days days));
  let end_date := datetime.strftime_date end_dt in
  let start_date := datetime.strftime_date now in
  let params :=
    [("lat", VFloat lat); ("lng", VFloat lon);
     ("start", VStr start_date); ("end", VStr end_date)] in
  try_except_HTTPError
    (body ← _request "extremes" params;
     lift (getitem body "data"))
    (fun status =>
       if status =? 402 then
         extremes ← lift (_find_synthetic_extremes days now);
         mret (VList (extreme_value <$> extremes))
       else raise (HTTPError status)).

End Tide.

Arguments value : clear implicits.
Arguments request : clear implicits.
Arguments response : clear implicits.
Arguments world : clear implicits.
Arguments io : clear implicits.
Arguments extreme : clear implicits.

(** ** An instance in the real numbers

    The float operations read in the real numbers, where every
    operation returns its mathematical value.  This is not the
    arithmetic of the code, whose doubles round, and no property of the
    code is stated on it: the statements below hold for every instance
    of [PyFloat], and this one serves to apply them to sample calls. *)
#[export] Instance RealFloat : PyFloat R := {|
  float_of_int := IZR;
  float_literal := fun digits scale => (IZR digits / 10 ^ scale)%R;
  int_truediv := fun a b => (IZR a / IZR b)%R;
  fmul := Rmult;
  fdiv := Rdiv;
  math_pi := PI;
  math_sin := sin;
  fle := fun a b => if Rle_dec a b then true else false;
|}.

(** ** Vocabulary of the statements *)

Section Vocabulary.

Context {F : Type} `{PyFloat F}.

(** The instant of sample [h] of a wave started at [start_dt]. *)
Definition instant (start_dt : datetime.t) (h : Z) : datetime.t :=
  start_dt + datetime.hours h.

(** All the instants of [hs] are dates Python can represent. *)
Definition representable (start_dt : datetime.t) (hs : list Z) : bool :=
  forallb (fun h => datetime.validb (instant start_dt h)) hs.

Definition sea_level_request (lat lon : F) (now end_dt : datetime.t) : request F :=
  {| url := BASE_URL +:+ "/" +:+ "sea-level/point";
     params := [("lat", VFloat lat); ("lng", VFloat lon);
                ("start", VStr (datetime.strftime_hour now));
                ("end", VStr (datetime.strftime_hour end_dt))] |}.

(** What the [try] block makes of a decoded body. *)
Definition sea_level_of_body (hours : Z) (body : value F)
    : result (tide_dict (value F) (value F)) :=
  data ← getitem body "data";
  rows ← iterate data;
  times ← comprehension "time" rows;
  levels ← comprehension "sg" rows;
  mret {| time := slice_to hours times; sea_level := slice_to hours levels |}.

Definition is_error_status (status : Z) : bool :=
  (400 <=? status) && (status <? 600).

(** Reading the decoded body raises nothing but [KeyError] and
    [TypeError]. *)
Definition data_error (e : exn) : Prop :=
  match e with
  | KeyError _ | TypeError => True
  | _ => False
  end.

Definition extremes_request (lat lon : F) (now end_dt : datetime.t) : request F :=
  {| url := BASE_URL +:+ "/" +:+ "extremes";
     params := [("lat", VFloat lat); ("lng", VFloat lon);
                ("start", VStr (datetime.strftime_date now));
                ("end", VStr (datetime.strftime_date end_dt))] |}.

Definition extremes_value (extremes : list (extreme F)) : value F :=
  VList (extreme_value <$> extremes).

(** What a call makes of the provider's answer to its request. *)
Definition sea_level_answer (hours : Z) (now : datetime.t) (r : response F)
    : result (tide_dict (value F) (value F)) :=
  match r with
  | NoResponse => Raise RequestException
  | Response status body =>
      if is_error_status status then
        if status =? 402 then as_values <$> _sine_wave_tide hours now
        else Raise (HTTPError status)
      else match body with
           | Some v => sea_level_of_body hours v
           | None => Raise RequestException
           end
  end.

Definition extremes_answer (days : Z) (now : datetime.t) (r : response F)
    : result (value F) :=
  match r with
  | NoResponse => Raise RequestException
  | Response status body =>
      if is_error_status status then
        if status =? 402 then extremes_value <$> _find_synthetic_extremes days now
        else Raise (HTTPError status)
      else match body with
           | Some v => getitem v "data"
           | None => Raise RequestException
           end
  end.

(** The high-tide test comes first, then the low-tide test. *)
Definition kind_of (prev cur next : F) : option tide_type :=
  if fge cur prev && fge cur next then Some high
  else if fle cur prev && fle cur next then Some low
  else None.

(** The event the scan emits at index [i], if it emits one. *)
Definition event_at_index (times : list string) (levels : list F) (i : nat)
    : option (extreme F) :=
  match times !! i, levels !! (i - 1)%nat, levels !! i, levels !! (i + 1)%nat with
  | Some t, Some prev, Some cur, Some next =>
      (fun ty => {| ex_time := t; height := cur; type := ty |})
        <$> kind_of prev cur next
  | _, _, _, _ => None
  end.

(** The interior indices [1 .. n - 2] of [n] samples. *)
Definition interior (n : nat) : list nat := seq 1 (n - 2).

Definition scan (times : list string) (levels : list F) : list (extreme F) :=
  omap (event_at_index times levels) (interior (length levels)).

(** The specification's [FindSyntheticExtremes]: sample [days * 24 + 1]
    hours, then scan the interior indices in order. *)
Definition FindSyntheticExtremes (days : Z) (start_time : datetime.t)
    : result (list (extreme F)) :=
  tide ← _sine_wave_tide (days * 24 + 1) start_time;
  mret (scan (time tide) (sea_level tide)).

(** A level list that rises, or falls, at every step. *)
Definition strictly_increasing (levels : list F) : Prop :=
  forall (i : nat) (a b : F),
    levels !! i = Some a -> levels !! S i = Some b -> flt a b = true.
Definition strictly_decreasing (levels : list F) : Prop :=
  forall (i : nat) (a b : F),
    levels !! i = Some a -> levels !! S i = Some b -> flt b a = true.
Definition strictly_monotonic (levels : list F) : Prop :=
  strictly_increasing levels \/ strictly_decreasing levels.

(** A world in which Stormglass answers every request the same way. *)
Definition answering (now : datetime.t) (r : response F) : world F :=
  {| utc_now := now; stormglass := fun _ => r |}.

End Vocabulary.

(** Dates (year, month, day) in calendar order. *)
Definition civil_lt (a b : Z * Z * Z) : Prop :=
  let '(y, m, d) := a in
  let '(y', m', d') := b in
  y < y' \/ (y = y' /\ (m < m' \/ (m = m' /\ d < d'))).

(** The first comparison that is not [Eq]. *)
Fixpoint lex (cs : list comparison) : comparison :=
  match cs with
  | [] => Eq
  | Eq :: rest => lex rest
  | c :: _ => c
  end.

(** The fields [isoformat] prints, in the order it prints them. *)
Definition iso_fields (t : datetime.t) : list Z :=
  let '(y, m, d) := datetime.civil_from_days (t / datetime.US_PER_DAY) in
  [y; m; d; datetime.hour_of t; datetime.minute_of t; datetime.second_of t;
   datetime.microsecond_of t].

Definition compare_fields (a b : list Z) : list comparison :=
  zip_with Z.compare a b.

(** 2023-11-14T22:13:20+00:00 *)
Definition a_moment : datetime.t := 1700000000000000.

(** A body with a single row: [{"data": [{"time": ..., "sg": 1.0}]}]. *)
Definition one_row_body : value R :=
  VDict [("data",
          VList [VDict [("time", VStr "2023-11-14T22:00:00+00:00");
                        ("sg", VFloat 1%R)]])].


(** ** Vocabulary of the further properties *)

Section MoreVocabulary.

Context {F : Type} `{PyFloat F}.

(** A row that is a JSON object, and a row that has the key [k]. *)
Definition is_object (v : value F) : Prop := exists items, v = VDict items.
Definition has_key (k : string) (v : value F) : Prop :=
  exists x, getitem v k = Ok x.

End MoreVocabulary.


(** Bodies without ["data"], and with a ["data"] that is no list. *)
Definition no_data_body : value R := VDict [("meta", VDict [])].
Definition text_data_body : value R := VDict [("data", VStr "none")].

(** 0999-12-31T23:00:00+00:00, an hour before the year 1000. *)
Definition year_999 : datetime.t := -30610227600000000.


(** ** WeatherTool

    [src/tools/weather_tool/main.py]: the wind forecast of Open-Meteo,
    cut to the hours asked for. *)

Section Weather.

Context {F : Type} `{PyFloat F}.

Definition OPEN_METEO_URL : string := "https://api.open-meteo.com/v1/forecast".

(** [v[:n]] on a decoded value: a list or a string is cut, anything else
    cannot be sliced (a [dict] raises [TypeError] too, up to Python 3.11). *)
Definition slice_value (n : Z) (v : value F) : result (value F) :=
  match v with
  | VList l => Ok (VList (slice_to n l))
  | VStr s =>
      Ok (VStr (string_of_list_ascii (slice_to n (list_ascii_of_string s))))
  | _ => Raise TypeError
  end.

(** The dictionary [{"time": ..., "windspeed_10m": ...,
    "winddirection_10m": ...}]. *)
Record wind_forecast : Type := {
  forecast_time : value F;
  windspeed_10m : value F;
  winddirection_10m : value F;
}.

Definition wind_request (lat lon : F) : request F :=
  {| url := OPEN_METEO_URL;
     params := [("latitude", VFloat lat); ("longitude", VFloat lon);
                ("hourly", VStr "windspeed_10m,winddirection_10m");
                ("timezone", VStr "auto")] |}.

(** [resp.raise_for_status()] and [resp.json()]. *)
Definition raise_for_status (status : Z) : result unit :=
  if (400 <=? status) && (status <? 600) then Raise (HTTPError status) else Ok tt.
Definition json_of (body : option (value F)) : result (value F) :=
  match body with
  | Some v => Ok v
  | None => Raise RequestException
  end.

(** [get_wind_forecast], given what Open-Meteo answers to a request;
    the result comes with the requests that were sent. *)
Definition get_wind_forecast (open_meteo : request F -> response F)
    (lat lon : F) (hours : Z) : result wind_forecast * list (request F) :=
  if (1 <=? hours) && (hours <=? 168) then
    let rq := wind_request lat lon in
    (match open_meteo rq with
     | NoResponse => Raise RequestException
     | Response status body =>
         _ ← raise_for_status status;
         decoded ← json_of body;
         hourly ← getitem decoded "hourly";
         times ← getitem hourly "time";
         times ← slice_value hours times;
         speeds ← getitem hourly "windspeed_10m";
         speeds ← slice_value hours speeds;
         directions ← getitem hourly "winddirection_10m";
         directions ← slice_value hours directions;
         mret {| forecast_time := times; windspeed_10m := speeds;
                 winddirection_10m := directions |}
     end, [rq])
  else (Raise (AssertionError "hours must be 1-168"), []).

End Weather.

Arguments wind_forecast : clear implicits.


(** ** UserProfileTool

    [src/tools/user_profile_tool/main.py]: the profiles are kept in a
    module-level [dict], in insertion order, and written to
    [profiles.json] at every update.  The store the module starts from
    is any such [dict] (the file, when there is one, is taken to hold a
    JSON object), and writing the file is taken to succeed. *)

Section Profiles.

Context {F : Type} `{PyFloat F}.

(** [json.dumps] of the profiles. *)
Variable dumps : list (string * value F) -> string.

(** The state of the module: the [dict] in memory and the text of the
    file at [STORE_PATH], if there is one. *)
Record store : Type := {
  profiles : list (string * value F);
  STORE_PATH : option string;
}.

(** [d[k] = v]: an existing key keeps its place, a new one goes last. *)
Fixpoint dict_set (k : string) (v : value F) (items : list (string * value F))
    : list (string * value F) :=
  match items with
  | [] => [(k, v)]
  | (k', v') :: rest =>
      if String.eqb k k' then (k, v) :: rest else (k', v') :: dict_set k v rest
  end.

(** [d.get(k, default)] *)
Definition dict_get (items : list (string * value F)) (k : string)
    (default : value F) : value F :=
  match lookup_key k items with
  | Some v => v
  | None => default
  end.

Definition get_profile (user_id : string) (s : store) : value F :=
  dict_get (profiles s) user_id (VDict []).

Definition set_profile (user_id : string) (profile : value F) (s : store)
    : value F * store :=
  let profiles' := dict_set user_id profile (profiles s) in
  (VDict [("status", VStr "ok")],
   {| profiles := profiles'; STORE_PATH := Some (dumps profiles') |}).

(** The calls the tool serves, and the state after a sequence of them. *)
Inductive profile_call : Type :=
  | GetProfile (user_id : string)
  | SetProfile (user_id : string) (profile : value F).

Definition serve (s : store) (c : profile_call) : store :=
  match c with
  | GetProfile _ => s
  | SetProfile user_id profile => (set_profile user_id profile s).2
  end.

Definition serve_all (calls : list profile_call) (s : store) : store :=
  foldl serve s calls.

(** The profile the last [SetProfile] for [user_id] stored, if any. *)
Fixpoint last_set (user_id : string) (calls : list profile_call)
    : option (value F) :=
  match calls with
  | [] => None
  | c :: rest =>
      match last_set user_id rest with
      | Some p => Some p
      | None =>
          match c with
          | SetProfile u p => if String.eqb user_id u then Some p else None
          | GetProfile _ => None
          end
      end
  end.

Definition is_set (c : profile_call) : bool :=
  match c with SetProfile _ _ => true | GetProfile _ => false end.

End Profiles.

Arguments store : clear implicits.
Arguments profile_call : clear implicits.


(** ** WindWizard

    [src/agent/windwizard.py]: the agent asks the profile, weather and
    tide tools through their clients, computes a score and a kite, and
    may ask the notification tool to send an SMS. *)

Section Agent.

Context {F : Type} `{PyFloat F}.

(** What [compute_stoke] can raise: a failed [predict], [.get] on a
    value that is no [dict], the [KeyError] or [TypeError] of a
    subscript, what [statistics.mean] raises (no data, or data that are
    no numbers), and what [int] raises (not a number, infinity). *)
Inductive failure : Type :=
  | ClientError
  | AttributeError
  | SubscriptError (e : exn)
  | MeanError
  | IntError.

Inductive outcome (A : Type) : Type :=
  | Done (a : A)
  | Failed (f : failure).
Arguments Done {A} a.
Arguments Failed {A} f.

(** The numbers [statistics.mean] returns ([int] or [float]) with the
    operations the agent applies to them. *)
Class PyNumber (N : Type) : Type := {
  (** [mean(v)], when it does not raise *)
  mean : value F -> option N;
  (** [x * n] for an integer literal [n], and [x + y] *)
  num_mul : N -> Z -> N;
  num_add : N -> N -> N;
  (** [int(x)], when it does not raise *)
  int_of : N -> option Z;
  (** [x < n] for an integer literal [n] *)
  num_lt : N -> Z -> bool;
  (** [f"{x:.1f}"] and the like, by the number of decimals *)
  format_fixed : nat -> N -> string;
}.

Context {N : Type} `{PyNumber N}.

(** The tools behind the four clients: what [predict] returns, or its
    failure. *)
Record tools : Type := {
  profile_client : string -> outcome (value F);
  weather_client : F -> F -> Z -> outcome (value F);
  tide_client : F -> F -> Z -> outcome (value F);
  notify_client : value F -> string -> outcome (value F);
}.

(** The calls to the tools, as the agent makes them. *)
Inductive tool_call : Type :=
  | GetProfileCall (user_id : string)
  | WindForecastCall (lat lon : F) (hours : Z)
  | SeaLevelCall (lat lon : F) (hours : Z)
  | SendSMSCall (to : value F) (msg : string).

(** A computation of the agent: its outcome and the calls it made. *)
Definition agent (A : Type) : Type := tools -> outcome A * list tool_call.

#[export] Instance agent_ret : MRet agent := fun A a _ => (Done a, []).
#[export] Instance agent_bind : MBind agent := fun A B k m t =>
  match m t with
  | (Done a, calls) => let '(r, calls') := k a t in (r, calls ++ calls')
  | (Failed f, calls) => (Failed f, calls)
  end.

Definition pure {A} (r : outcome A) : agent A := fun _ => (r, []).

Definition predict_profile (user_id : string) : agent (value F) :=
  fun t => (profile_client t user_id, [GetProfileCall user_id]).
Definition predict_weather (lat lon : F) (hours : Z) : agent (value F) :=
  fun t => (weather_client t lat lon hours, [WindForecastCall lat lon hours]).
Definition predict_tide (lat lon : F) (hours : Z) : agent (value F) :=
  fun t => (tide_client t lat lon hours, [SeaLevelCall lat lon hours]).
Definition predict_notify (to : value F) (msg : string) : agent (value F) :=
  fun t => (notify_client t to msg, [SendSMSCall to msg]).

(** [v.get(k, default)] *)
Definition value_get (v : value F) (k : string) (default : value F)
    : outcome (value F) :=
  match v with
  | VDict items => Done (dict_get items k default)
  | _ => Failed AttributeError
  end.

(** [v[k]] *)
Definition subscript (v : value F) (k : string) : outcome (value F) :=
  match getitem v k with
  | Ok x => Done x
  | Raise e => Failed (SubscriptError e)
  end.

Definition mean_of (v : value F) : outcome N :=
  match mean v with
  | Some x => Done x
  | None => Failed MeanError
  end.

Definition to_int (x : N) : outcome Z :=
  match int_of x with
  | Some n => Done n
  | None => Failed IntError
  end.

(** The dictionary [compute_stoke] returns. *)
Record stoke_report : Type := {
  profile : value F;
  stoke : Z;
  kite : string;
  message : string;
}.

(** [compute_stoke], for an [hours] that is an [int], which
    [int(hours)] leaves as it is.  The steps are in the order of the
    source: each mean is taken before the next tool is asked, and the
    two [.get] on the profile are made although their values are not
    used. *)
Definition compute_stoke (user_id : string) (lat lon : F) (hours : Z)
    (alert : bool) : agent stoke_report :=
  profile ← predict_profile user_id;
  weight ← pure (value_get profile "weight" (VInt 80));
  skill ← pure (value_get profile "skill" (VStr "intermediate"));
  weather ← predict_weather lat lon hours;
  wind ← pure (subscript weather "windspeed_10m");
  avg_wind ← pure (mean_of wind);
  tide ← predict_tide lat lon hours;
  tide_level ← pure (subscript tide "sea_level");
  avg_tide ← pure (mean_of tide_level);
  n ← pure (to_int (num_add (num_mul avg_wind 4) (num_mul avg_tide 10)));
  let score := Z.min 100 (Z.max 0 n) in
  let kite :=
    if num_lt avg_wind 10 then "Too little wind"
    else if num_lt avg_wind 15 then "12m kite"
    else if num_lt avg_wind 20 then "9m kite"
    else "7m kite" in
  let msg :=
    "Avg wind " +:+ format_fixed 1 avg_wind +:+ " kt, tide "
      +:+ format_fixed 2 avg_tide +:+ "m. Stoke " +:+ pretty score
      +:+ "/100. Use " +:+ kite +:+ "." in
  _ ← (if alert && (60 <=? score) then
         phone ← pure (value_get profile "phone" (VStr ""));
         predict_notify phone msg
       else mret VNone);
  mret {| profile := profile; stoke := score; kite := kite; message := msg |}.

End Agent.

Arguments Done {A} a.
Arguments Failed {A} f.
Arguments tools : clear implicits.
Arguments tool_call : clear implicits.
Arguments stoke_report : clear implicits.


(** The four kites. *)
Definition kites : list string :=
  ["Too little wind"; "12m kite"; "9m kite"; "7m kite"].

(** ** An instance of the numbers in the real numbers

    [PyNumber] read in the real numbers, beside [RealFloat]: an [int] is
    the real number it denotes, and every operation returns its
    mathematical value.  As [RealFloat], this is not the arithmetic of
    the code: a mean, a product or a sum of doubles is rounded, so that
    [int] and the formats can differ from the ones here by a unit in
    the last place.  No property of the code is stated on it; the
    statements on [compute_stoke] hold for every instance of
    [PyNumber], and this one serves to apply them to a sample run, on
    data where no operation rounds. *)

(** The numbers among the decoded values; a [bool] is an [int]. *)
Definition number_of (v : value R) : option R :=
  match v with
  | VBool b => Some (if b then 1 else 0)%R
  | VInt n => Some (IZR n)
  | VFloat x => Some x
  | _ => None
  end.

(** [statistics.mean]: of a list that is not empty and holds numbers
    only; anything else raises. *)
Definition real_mean (v : value R) : option R :=
  match v with
  | VList (x :: l) =>
      xs ← mapM number_of (x :: l);
      Some (fold_right Rplus 0 xs / INR (length xs))%R
  | _ => None
  end.

(** [int(x)] rounds towards zero. *)
Definition trunc (x : R) : Z :=
  if Rle_dec 0 x then Int_part x else - Int_part (- x).

(** The nearest integer, the even one of two that are as near. *)
Definition round_half_even (x : R) : Z :=
  let f := Int_part x in
  let r := (x - IZR f)%R in
  if Rlt_dec r (1 / 2) then f
  else if Rlt_dec (1 / 2) r then f + 1
  else if Z.even f then f else f + 1.

(** [f"{x:.df}"] *)
Definition format_real (d : nat) (x : R) : string :=
  let m := round_half_even (Rabs x * 10 ^ d) in
  (if Rlt_dec x 0 then "-" else "")
    +:+ pretty (m / 10 ^ Z.of_nat d)
    +:+ match d with
        | O => ""
        | S _ => "." +:+ datetime.zpad d (m mod 10 ^ Z.of_nat d)
        end.

#[export] Instance RealNumber : PyNumber (F:=R) R := {|
  mean := real_mean;
  num_mul := fun x n => (x * IZR n)%R;
  num_add := Rplus;
  int_of := fun x => Some (trunc x);
  num_lt := fun x n => if Rlt_dec x (IZR n) then true else false;
  format_fixed := format_real;
|}.

(** ** Sample answers of the tools *)

(** Two hours of forecast, as Open-Meteo answers. *)
Definition two_hours_body : value R :=
  VDict [("latitude", VFloat 55.66%R);
         ("hourly",
          VDict [("time", VList [VStr "2025-06-08T00:00"; VStr "2025-06-08T01:00"]);
                 ("windspeed_10m", VList [VFloat 14.5%R; VFloat 15.5%R]);
                 ("winddirection_10m", VList [VInt 270; VInt 265; VInt 260])])].

(** Tools that answer with a profile, fifteen knots of wind and a metre
    of tide, and accept the SMS. *)
Definition breezy : tools R := {|
  profile_client := fun _ =>
    Done (VDict [("weight", VInt 75); ("phone", VStr "+4512345678")]);
  weather_client := fun _ _ _ =>
    Done (VDict [("time", VList [VStr "2025-06-08T00:00"; VStr "2025-06-08T01:00"]);
                 ("windspeed_10m", VList [VFloat 14.5%R; VFloat 15.5%R]);
                 ("winddirection_10m", VList [VInt 270; VInt 265])]);
  tide_client := fun _ _ _ =>
    Done (VDict [("time", VList [VStr "2025-06-08T00:00:00+00:00";
                                 VStr "2025-06-08T01:00:00+00:00"]);
                 ("sea_level", VList [VInt 1; VInt 1])]);
  notify_client := fun _ _ => Done (VDict [("sid", VStr "SM1")]);
|}.


(** * Properties *)

(** Goals on quotients and remainders by constants. *)
Ltac by_division := Z.div_mod_to_equations; lia.

(** ** Timestamps

    [isoformat] prints fields of fixed width, so that the timestamps of
    representable instants compare as strings the way the instants
    compare in time. *)

Section Timestamps.

Lemma civil_fields (n : Z) :
  let '(y, m, d) := datetime.civil_from_days n in 1 <= m <= 12 /\ 1 <= d <= 31.
Proof.
  unfold datetime.civil_from_days.
  set (z := n + 719468). set (era := z / 146097).
  set (doe := z - era * 146097).
  assert (0 <= doe <= 146096) as Hdoe by (subst doe era; by_division).
  clearbody doe. clear z era.
  set (yoe := (doe - doe / 1460 + doe / 36524 - doe / 146096) / 365).
  set (doy := doe - (365 * yoe + yoe / 4 - yoe / 100)).
  assert (0 <= doy <= 365) as Hdoy by (subst doy yoe; by_division).
  clearbody doy.
  set (mp := (5 * doy + 2) / 153).
  destruct (mp <? 10) eqn:Hmp; [apply Z.ltb_lt in Hmp|apply Z.ltb_ge in Hmp];
    subst mp; by_division.
Qed.

(** A later day has a later date. *)
Lemma civil_from_days_lt (n n' : Z) :
  n < n' -> civil_lt (datetime.civil_from_days n) (datetime.civil_from_days n').
Proof.
  intros Hn. unfold datetime.civil_from_days, civil_lt.
  set (z := n + 719468). set (z' := n' + 719468).
  assert (z < z') as Hz by (subst z z'; lia). clearbody z z'.
  set (era := z / 146097). set (era' := z' / 146097).
  set (doe := z - era * 146097). set (doe' := z' - era' * 146097).
  assert (0 <= doe <= 146096 /\ 0 <= doe' <= 146096
          /\ (era < era' \/ (era = era' /\ doe < doe'))) as (Hdoe & Hdoe' & He).
  { subst doe doe' era era'. by_division. }
  clearbody doe doe' era era'. clear z z' Hz.
  set (yoe := (doe - doe / 1460 + doe / 36524 - doe / 146096) / 365).
  set (yoe' := (doe' - doe' / 1460 + doe' / 36524 - doe' / 146096) / 365).
  set (doy := doe - (365 * yoe + yoe / 4 - yoe / 100)).
  set (doy' := doe' - (365 * yoe' + yoe' / 4 - yoe' / 100)).
  assert (0 <= yoe <= 399 /\ 0 <= doy <= 365) as (Hyoe & Hdoy).
  { subst doy yoe. by_division. }
  assert (0 <= yoe' <= 399 /\ 0 <= doy' <= 365) as (Hyoe' & Hdoy').
  { subst doy' yoe'. by_division. }
  assert (era < era' \/ (era = era' /\ (yoe < yoe' \/ (yoe = yoe' /\ doy < doy'))))
    as Hy.
  { destruct He as [He|[He Hlt]]; [left; exact He|right; split; [exact He|]].
    subst doy doy' yoe yoe'. by_division. }
  clearbody doy doy' yoe yoe'. clear doe doe' Hdoe Hdoe' He.
  set (mp := (5 * doy + 2) / 153). set (mp' := (5 * doy' + 2) / 153).
  set (d := doy - (153 * mp + 2) / 5 + 1). set (d' := doy' - (153 * mp' + 2) / 5 + 1).
  assert (0 <= mp <= 11 /\ 0 <= mp' <= 11) as (Hmp & Hmp').
  { subst mp mp'. by_division. }
  assert (doy < doy' -> mp < mp' \/ (mp = mp' /\ d < d')) as Hm.
  { intros Hlt. subst d d' mp mp'. by_division. }
  clearbody d d' mp mp'.
  destruct (mp <? 10) eqn:H10; destruct (mp' <? 10) eqn:H10';
    repeat match goal with
    | |- context [?a <=? ?b] => destruct (Z.leb_spec a b)
    | H : (_ <? _) = true |- _ => apply Z.ltb_lt in H
    | H : (_ <? _) = false |- _ => apply Z.ltb_ge in H
    end; lia.
Qed.

(** The year of a representable day lies in 1..9999. *)
Lemma civil_year (n : Z) :
  -719162 <= n <= 2932896 ->
  let '(y, m, d) := datetime.civil_from_days n in 1 <= y <= 9999.
Proof.
  intros [Hlo Hhi].
  assert (Hmin : datetime.civil_from_days (-719162) = (1, 1, 1)) by reflexivity.
  assert (Hmax : datetime.civil_from_days 2932896 = (9999, 12, 31)) by reflexivity.
  pose proof (civil_fields n) as Hf.
  destruct (Z.eq_dec n (-719162)) as [->|Hn1]; [rewrite Hmin; lia|].
  destruct (Z.eq_dec n 2932896) as [->|Hn2]; [rewrite Hmax; lia|].
  pose proof (civil_from_days_lt (-719162) n ltac:(lia)) as H1.
  pose proof (civil_from_days_lt n 2932896 ltac:(lia)) as H2.
  rewrite Hmin in H1. rewrite Hmax in H2.
  destruct (datetime.civil_from_days n) as [[y m] d].
  unfold civil_lt in H1, H2. lia.
Qed.

Lemma compare_refl (s : string) : String.compare s s = Eq.
Proof.
  induction s as [|a s IH]; [done|].
  cbn [String.compare]. unfold Ascii.compare. by rewrite N.compare_refl.
Qed.

Lemma compare_app (a a' b b' : string) :
  String.length a = String.length a' ->
  String.compare (a +:+ b) (a' +:+ b')
  = lex [String.compare a a'; String.compare b b'].
Proof.
  revert a'. induction a as [|c a IH]; intros [|c' a'] Hlen; try done.
  - change (String.compare b b' = lex [Eq; String.compare b b']).
    cbn [lex]. by destruct (String.compare b b').
  - change (String.compare (String c (a +:+ b)) (String c' (a' +:+ b'))
            = lex [String.compare (String c a) (String c' a'); String.compare b b']).
    cbn [String.compare lex]. destruct (Ascii.compare c c'); try done.
    apply IH. cbn [String.length] in Hlen. lia.
Qed.

(** A separator printed on both sides does not decide. *)
Lemma compare_separator (c : ascii) (b b' : string) :
  String.compare (String c "" +:+ b) (String c "" +:+ b') = String.compare b b'.
Proof.
  change (String.compare (String c b) (String c b') = String.compare b b').
  cbn [String.compare]. unfold Ascii.compare. by rewrite N.compare_refl.
Qed.

Lemma length_append (a b : string) :
  String.length (a +:+ b) = (String.length a + String.length b)%nat.
Proof.
  induction a as [|c a IH]; [done|].
  change (S (String.length (a +:+ b)) = S (String.length a + String.length b)).
  by rewrite IH.
Qed.

Lemma length_zpad (w : nat) (n : Z) : String.length (datetime.zpad w n) = w.
Proof.
  revert n. induction w as [|w IH]; intros n; [done|].
  change (datetime.zpad (S w) n)
    with (datetime.zpad w (n / 10) +:+ String (datetime.digit n) "").
  rewrite length_append, IH. cbn [String.length]. lia.
Qed.

Lemma compare_digit (n m : Z) :
  Ascii.compare (datetime.digit n) (datetime.digit m) = (n mod 10 ?= m mod 10).
Proof.
  unfold Ascii.compare, datetime.digit.
  assert (forall k, 0 <= k < 10 ->
            N_of_ascii (ascii_of_nat (48 + Z.to_nat k)) = Z.to_N (48 + k)) as Hk.
  { intros k Hk.
    assert (k = 0 \/ k = 1 \/ k = 2 \/ k = 3 \/ k = 4 \/ k = 5 \/ k = 6
            \/ k = 7 \/ k = 8 \/ k = 9) as Hc by lia.
    repeat (destruct Hc as [->|Hc]; [reflexivity|]). by subst k. }
  pose proof (Z.mod_pos_bound n 10) as Hn. pose proof (Z.mod_pos_bound m 10) as Hm.
  rewrite !Hk by lia. rewrite Z2N.inj_compare by lia.
  destruct (Z.compare_spec (n mod 10) (m mod 10)),
           (Z.compare_spec (48 + n mod 10) (48 + m mod 10)); lia || done.
Qed.

Lemma compare_by_digits (n m : Z) :
  (n ?= m) = lex [n / 10 ?= m / 10; n mod 10 ?= m mod 10].
Proof.
  cbn [lex].
  destruct (Z.compare_spec (n / 10) (m / 10)) as [He|Hl|Hg];
    destruct (Z.compare_spec (n mod 10) (m mod 10));
    destruct (Z.compare_spec n m); try done;
    exfalso; by_division.
Qed.

(** Numbers padded to the same width compare as numbers. *)
Lemma compare_zpad (w : nat) :
  forall n m : Z,
  0 <= n < 10 ^ Z.of_nat w -> 0 <= m < 10 ^ Z.of_nat w ->
  String.compare (datetime.zpad w n) (datetime.zpad w m) = (n ?= m).
Proof.
  induction w as [|w IH]; intros n m Hn Hm.
  - change (10 ^ Z.of_nat 0) with 1 in Hn, Hm.
    assert (n = 0) by lia. assert (m = 0) by lia. by subst.
  - change (datetime.zpad (S w) n)
      with (datetime.zpad w (n / 10) +:+ String (datetime.digit n) "").
    change (datetime.zpad (S w) m)
      with (datetime.zpad w (m / 10) +:+ String (datetime.digit m) "").
    rewrite compare_app by by rewrite !length_zpad.
    rewrite Nat2Z.inj_succ, Z.pow_succ_r in Hn, Hm by lia.
    assert (0 <= n / 10 < 10 ^ Z.of_nat w) as Hn'.
    { split; [apply Z.div_pos; lia|apply Z.div_lt_upper_bound; lia]. }
    assert (0 <= m / 10 < 10 ^ Z.of_nat w) as Hm'.
    { split; [apply Z.div_pos; lia|apply Z.div_lt_upper_bound; lia]. }
    rewrite IH by done. rewrite (compare_by_digits n m).
    cbn [lex String.compare]. rewrite compare_digit.
    by destruct (n mod 10 ?= m mod 10).
Qed.

Lemma lex_app (cs cs' : list comparison) :
  lex [lex cs; lex cs'] = lex (cs ++ cs').
Proof.
  induction cs as [|c cs IH]; cbn [lex app].
  - by destruct (lex cs').
  - destruct c; try done.
Qed.

Lemma compare_date (y m d y' m' d' : Z) :
  0 <= y < 10000 -> 0 <= m < 100 -> 0 <= d < 100 ->
  0 <= y' < 10000 -> 0 <= m' < 100 -> 0 <= d' < 100 ->
  String.compare
    (datetime.zpad 4 y +:+ "-" +:+ datetime.zpad 2 m +:+ "-" +:+ datetime.zpad 2 d)
    (datetime.zpad 4 y' +:+ "-" +:+ datetime.zpad 2 m' +:+ "-" +:+ datetime.zpad 2 d')
  = lex [y ?= y'; m ?= m'; d ?= d'].
Proof.
  intros Hy Hm Hd Hy' Hm' Hd'.
  rewrite compare_app by by rewrite !length_zpad.
  rewrite compare_separator.
  rewrite compare_app by by rewrite !length_zpad.
  rewrite compare_separator.
  rewrite !compare_zpad by done.
  cbn [lex].
  by destruct (y ?= y'), (m ?= m'), (d ?= d').
Qed.

(** The fraction and the offset that follows it. *)
Lemma compare_fraction (us us' : Z) :
  0 <= us < 1000000 -> 0 <= us' < 1000000 ->
  String.compare
    ((if us =? 0 then "" else "." +:+ datetime.zpad 6 us) +:+ "+00:00")
    ((if us' =? 0 then "" else "." +:+ datetime.zpad 6 us') +:+ "+00:00")
  = (us ?= us').
Proof.
  intros Hus Hus'.
  destruct (Z.eqb_spec us 0) as [->|Hne]; destruct (Z.eqb_spec us' 0) as [->|Hne'].
  - by rewrite compare_refl.
  - change (String.compare (String "+" "00:00")
              (String "." (datetime.zpad 6 us' +:+ "+00:00")) = (0 ?= us')).
    cbn [String.compare]. change (Ascii.compare "+" ".") with Lt.
    symmetry. apply Z.compare_lt_iff. lia.
  - change (String.compare (String "." (datetime.zpad 6 us +:+ "+00:00"))
              (String "+" "00:00") = (us ?= 0)).
    cbn [String.compare]. change (Ascii.compare "." "+") with Gt.
    symmetry. apply Z.compare_gt_iff. lia.
  - change (String.compare
              (String "." "" +:+ (datetime.zpad 6 us +:+ "+00:00"))
              (String "." "" +:+ (datetime.zpad 6 us' +:+ "+00:00")) = (us ?= us')).
    rewrite compare_separator.
    rewrite compare_app by by rewrite !length_zpad.
    rewrite compare_zpad by done. rewrite compare_refl.
    cbn [lex]. by destruct (us ?= us').
Qed.

Lemma compare_time (h m s us h' m' s' us' : Z) :
  0 <= h < 100 -> 0 <= m < 100 -> 0 <= s < 100 -> 0 <= us < 1000000 ->
  0 <= h' < 100 -> 0 <= m' < 100 -> 0 <= s' < 100 -> 0 <= us' < 1000000 ->
  String.compare
    ("T" +:+ datetime.zpad 2 h +:+ ":" +:+ datetime.zpad 2 m +:+ ":"
       +:+ datetime.zpad 2 s
       +:+ (if us =? 0 then "" else "." +:+ datetime.zpad 6 us) +:+ "+00:00")
    ("T" +:+ datetime.zpad 2 h' +:+ ":" +:+ datetime.zpad 2 m' +:+ ":"
       +:+ datetime.zpad 2 s'
       +:+ (if us' =? 0 then "" else "." +:+ datetime.zpad 6 us') +:+ "+00:00")
  = lex [h ?= h'; m ?= m'; s ?= s'; us ?= us'].
Proof.
  intros Hh Hm Hs Hus Hh' Hm' Hs' Hus'.
  rewrite compare_separator.
  rewrite compare_app by by rewrite !length_zpad.
  rewrite compare_separator.
  rewrite compare_app by by rewrite !length_zpad.
  rewrite compare_separator.
  rewrite compare_app by by rewrite !length_zpad.
  rewrite compare_fraction by done.
  rewrite !compare_zpad by done.
  cbn [lex].
  by destruct (h ?= h'), (m ?= m'), (s ?= s'), (us ?= us').
Qed.

Lemma time_fields (t : datetime.t) :
  0 <= datetime.hour_of t < 24 /\ 0 <= datetime.minute_of t < 60
  /\ 0 <= datetime.second_of t < 60 /\ 0 <= datetime.microsecond_of t < 1000000.
Proof.
  unfold datetime.hour_of, datetime.minute_of, datetime.second_of,
    datetime.microsecond_of, datetime.US_PER_DAY, datetime.US_PER_HOUR,
    datetime.US_PER_SECOND.
  repeat split; by_division.
Qed.

Lemma valid_day (t : datetime.t) :
  datetime.valid t -> -719162 <= t / datetime.US_PER_DAY <= 2932896.
Proof.
  unfold datetime.valid, datetime.min, datetime.max, datetime.US_PER_DAY,
    datetime.US_PER_HOUR, datetime.US_PER_SECOND.
  intros Ht. by_division.
Qed.

(** Two timestamps compare field by field. *)
Lemma compare_isoformat (t t' : datetime.t) :
  datetime.valid t -> datetime.valid t' ->
  String.compare (datetime.isoformat t) (datetime.isoformat t')
  = lex (compare_fields (iso_fields t) (iso_fields t')).
Proof.
  intros Hd%valid_day Hd'%valid_day.
  unfold datetime.isoformat, datetime.date_part, iso_fields.
  pose proof (civil_fields (t / datetime.US_PER_DAY)) as Hf.
  pose proof (civil_fields (t' / datetime.US_PER_DAY)) as Hf'.
  pose proof (civil_year _ Hd) as Hy. pose proof (civil_year _ Hd') as Hy'.
  destruct (datetime.civil_from_days (t / datetime.US_PER_DAY)) as [[y m] d].
  destruct (datetime.civil_from_days (t' / datetime.US_PER_DAY)) as [[y' m'] d'].
  destruct (time_fields t) as (? & ? & ? & ?).
  destruct (time_fields t') as (? & ? & ? & ?).
  rewrite compare_app.
  2:{ rewrite !length_append, !length_zpad. done. }
  rewrite compare_date by lia. rewrite compare_time by lia.
  by rewrite lex_app.
Qed.

(** A later instant has a later timestamp, as strings compare. *)
Lemma isoformat_lt (t t' : datetime.t) :
  datetime.valid t -> datetime.valid t' -> t < t' ->
  String.ltb (datetime.isoformat t) (datetime.isoformat t') = true.
Proof.
  intros Hv Hv' Hlt. unfold String.ltb. rewrite compare_isoformat by done.
  unfold iso_fields.
  assert (t / datetime.US_PER_DAY < t' / datetime.US_PER_DAY
          \/ t / datetime.US_PER_DAY = t' / datetime.US_PER_DAY) as [Hday|Hday].
  { unfold datetime.US_PER_DAY, datetime.US_PER_HOUR, datetime.US_PER_SECOND.
    by_division. }
  - apply civil_from_days_lt in Hday.
    destruct (datetime.civil_from_days (t / datetime.US_PER_DAY)) as [[y m] d].
    destruct (datetime.civil_from_days (t' / datetime.US_PER_DAY)) as [[y' m'] d'].
    unfold civil_lt in Hday. unfold compare_fields. cbn [zip_with lex].
    destruct (Z.compare_spec y y'); [|done|lia].
    destruct (Z.compare_spec m m'); [|done|lia].
    destruct (Z.compare_spec d d'); [lia|done|lia].
  - rewrite Hday.
    destruct (datetime.civil_from_days (t' / datetime.US_PER_DAY)) as [[y' m'] d'].
    unfold compare_fields. cbn [zip_with lex]. rewrite !Z.compare_refl.
    revert Hlt Hday.
    unfold datetime.hour_of, datetime.minute_of, datetime.second_of,
      datetime.microsecond_of, datetime.US_PER_DAY, datetime.US_PER_HOUR,
      datetime.US_PER_SECOND.
    intros Hlt Hday.
    destruct (Z.compare_spec (t mod (24 * (3600 * 1000000)) / (3600 * 1000000))
                (t' mod (24 * (3600 * 1000000)) / (3600 * 1000000)));
      [|done|exfalso; by_division].
    destruct (Z.compare_spec (t mod (3600 * 1000000) / (60 * 1000000))
                (t' mod (3600 * 1000000) / (60 * 1000000)));
      [|done|exfalso; by_division].
    destruct (Z.compare_spec (t mod (60 * 1000000) / 1000000)
                (t' mod (60 * 1000000) / 1000000));
      [|done|exfalso; by_division].
    destruct (Z.compare_spec (t mod 1000000) (t' mod 1000000));
      [exfalso; by_division|done|exfalso; by_division].
Qed.

(** Distinct instants have distinct timestamps. *)
Lemma isoformat_inj (t t' : datetime.t) :
  datetime.valid t -> datetime.valid t' ->
  datetime.isoformat t = datetime.isoformat t' -> t = t'.
Proof.
  intros Hv Hv' Heq.
  destruct (Z.lt_trichotomy t t') as [Hlt|[Heq'|Hgt]]; [|done|].
  - pose proof (isoformat_lt _ _ Hv Hv' Hlt) as Hs. rewrite Heq in Hs.
    unfold String.ltb in Hs. by rewrite compare_refl in Hs.
  - pose proof (isoformat_lt _ _ Hv' Hv Hgt) as Hs. rewrite Heq in Hs.
    unfold String.ltb in Hs. by rewrite compare_refl in Hs.
Qed.


Lemma validb_valid (d : datetime.t) : datetime.validb d = true <-> datetime.valid d.
Proof.
  unfold datetime.validb, datetime.valid.
  rewrite andb_true_iff, !Z.leb_le. done.
Qed.

End Timestamps.

(** ** The synthetic wave *)

Section Wave.

Context {F : Type} `{PyFloat F}.

Lemma sine_wave_loop_eq (start_dt : datetime.t) (hs : list Z) :
  forall (times : list string) (levels : list F),
  sine_wave_loop start_dt hs times levels =
    if representable start_dt hs then
      Ok {| time := times ++ (datetime.isoformat ∘ instant start_dt <$> hs);
            sea_level := levels ++ (level_at ∘ instant start_dt <$> hs) |}
    else Raise OverflowError.
Proof.
  induction hs as [|h hs IH]; intros times levels; simpl.
  - by rewrite !app_nil_r.
  - unfold datetime.add, instant at 1.
    destruct (datetime.validb (start_dt + datetime.hours h)); simpl; [|done].
    rewrite IH. destruct (representable start_dt hs); [|done].
    by rewrite <- !app_assoc.
Qed.

Lemma _sine_wave_tide_eq (hours : Z) (start_dt : datetime.t) :
  _sine_wave_tide hours start_dt =
    if representable start_dt (range hours) then
      Ok {| time := datetime.isoformat ∘ instant start_dt <$> range hours;
            sea_level := level_at ∘ instant start_dt <$> range hours |}
    else Raise OverflowError.
Proof. unfold _sine_wave_tide. by rewrite sine_wave_loop_eq. Qed.

Lemma length_range (n : Z) : length (range n) = Z.to_nat n.
Proof. unfold range. by rewrite length_fmap, length_seq. Qed.

Lemma lookup_range (n : Z) (i : nat) :
  (i < Z.to_nat n)%nat -> range n !! i = Some (Z.of_nat i).
Proof.
  intros Hi. unfold range. rewrite list_lookup_fmap, lookup_seq_lt by done.
  done.
Qed.

Lemma elem_of_range (n h : Z) : h ∈ range n <-> 0 <= h < n.
Proof.
  unfold range. rewrite list_elem_of_fmap. setoid_rewrite elem_of_seq.
  split.
  - intros (k & -> & Hk). lia.
  - intros Hh. exists (Z.to_nat h). lia.
Qed.

(** The samples are representable as soon as the first and the last are. *)
Lemma representable_range (hours : Z) (start_dt : datetime.t) :
  datetime.valid start_dt ->
  start_dt + datetime.hours (hours - 1) <= datetime.max ->
  representable start_dt (range hours) = true.
Proof.
  intros [Hlo Hhi] Hlast. unfold representable.
  apply forallb_forall. intros h Hh%list_elem_of_In%elem_of_range.
  unfold datetime.validb, instant, datetime.hours in *.
  apply andb_true_iff. split; apply Z.leb_le.
  - assert (0 <= h * datetime.US_PER_HOUR) by (unfold datetime.US_PER_HOUR, datetime.US_PER_SECOND; lia).
    lia.
  - assert (h * datetime.US_PER_HOUR <= (hours - 1) * datetime.US_PER_HOUR)
      by (unfold datetime.US_PER_HOUR, datetime.US_PER_SECOND; lia).
    lia.
Qed.

(** Every sample of a representable wave falls on a valid instant. *)
Lemma representable_valid (hours : Z) (start_dt : datetime.t) (h : Z) :
  representable start_dt (range hours) = true ->
  0 <= h < hours ->
  datetime.valid (instant start_dt h).
Proof.
  unfold representable. rewrite forallb_forall. intros Hall Hh.
  apply validb_valid, Hall, list_elem_of_In, elem_of_range. done.
Qed.

End Wave.

(** ** The two entry points, case by case *)

Section Calls.

Context {F : Type} `{PyFloat F}.

Lemma getitem_raises (v : value F) (k : string) (e : exn) :
  getitem v k = Raise e -> data_error e.
Proof.
  destruct v; simpl; try (intros [= <-]; done).
  destruct (lookup_key k items); intros [= <-]; done.
Qed.

Lemma iterate_raises (v : value F) (e : exn) :
  iterate v = Raise e -> data_error e.
Proof. destruct v; simpl; intros [= <-]; done. Qed.

Lemma comprehension_raises (k : string) (rows : list (value F)) (e : exn) :
  comprehension k rows = Raise e -> data_error e.
Proof.
  induction rows as [|row rows IH]; simpl; [done|].
  destruct (getitem row k) as [x|e'] eqn:Hx; simpl.
  - destruct (comprehension k rows); simpl; [done|].
    intros [= <-]. by apply IH.
  - intros [= <-]. by eapply getitem_raises.
Qed.

Lemma sea_level_of_body_raises (hours : Z) (body : value F) (e : exn) :
  sea_level_of_body hours body = Raise e -> data_error e.
Proof.
  unfold sea_level_of_body.
  destruct (getitem body "data") as [data|e1] eqn:Hd; simpl;
    [|intros [= <-]; by eapply getitem_raises].
  destruct (iterate data) as [rows|e2] eqn:Hr; simpl;
    [|intros [= <-]; by eapply iterate_raises].
  destruct (comprehension "time" rows) as [ts|e3] eqn:Ht; simpl;
    [|intros [= <-]; by eapply comprehension_raises].
  destruct (comprehension "sg" rows) as [ls|e4] eqn:Hl; simpl;
    [done|intros [= <-]; by eapply comprehension_raises].
Qed.

Lemma sea_level_of_body_not_HTTPError (hours : Z) (body : value F) (s : Z) :
  sea_level_of_body hours body ≠ Raise (HTTPError s).
Proof. intros Hs. by apply sea_level_of_body_raises in Hs. Qed.

(** A block of steps that only compute sends nothing. *)
Lemma lift_bind {A B} (r : result A) (k : A -> result B) (w : world F) :
  (lift r ≫= fun a => lift (k a)) w = (r ≫= k, []).
Proof. unfold mbind, io_bind, lift. by destruct r as [a|e]; simpl. Qed.

Lemma lift_bind_io {A B} (r : result A) (k : A -> io F B) (k' : A -> result B)
    (w : world F) :
  (forall a, k a w = (k' a, [])) ->
  (lift r ≫= k) w = (r ≫= k', []).
Proof.
  intros Hk. unfold mbind, io_bind, lift.
  destruct r as [a|e]; simpl; [|done]. by rewrite Hk.
Qed.

Lemma sea_level_of_body_io (hours : Z) (body : value F) (w : world F) :
  (data ← lift (getitem body "data");
   rows ← lift (iterate data);
   times ← lift (comprehension "time" rows);
   levels ← lift (comprehension "sg" rows);
   mret {| time := slice_to hours times; sea_level := slice_to hours levels |}) w
  = (sea_level_of_body hours body, []).
Proof.
  unfold sea_level_of_body.
  apply lift_bind_io; intros data.
  apply lift_bind_io; intros rows.
  apply lift_bind_io; intros times.
  apply lift_bind_io; intros levels. done.
Qed.

Lemma get_tide_sea_level_eq (lat lon : F) (hours : Z) (w : world F) :
  get_tide_sea_level lat lon hours w =
    if (1 <=? hours) && (hours <=? 240) then
      match datetime.add (utc_now w) (datetime.hours hours) with
      | Raise e => (Raise e, [])
      | Ok end_dt =>
          let rq := sea_level_request lat lon (utc_now w) end_dt in
          (sea_level_answer hours (utc_now w) (stormglass w rq), [rq])
      end
    else (Raise (AssertionError "hours must be between 1 and 240"), []).
Proof.
  unfold get_tide_sea_level, assert.
  destruct ((1 <=? hours) && (hours <=? 240)); [|done].
  unfold mbind at 1, io_bind. simpl.
  unfold mbind at 1, io_bind. simpl.
  unfold mbind at 1, io_bind. unfold lift at 1.
  destruct (datetime.add (utc_now w) (datetime.hours hours)) as [end_dt|e]; [|done].
  simpl. unfold try_except_HTTPError, _request, send.
  fold (sea_level_request lat lon (utc_now w) end_dt).
  unfold sea_level_answer.
  unfold mbind at 1, io_bind.
  unfold mbind at 1, io_bind.
  destruct (stormglass w _) as [|status body]; [done|].
  unfold is_error_status.
  destruct ((400 <=? status) && (status <? 600)).
  - unfold raise at 1, lift at 1.
    destruct (status =? 402); [|done].
    unfold mbind, io_bind, lift.
    by destruct (_sine_wave_tide hours (utc_now w)).
  - destruct body as [v|]; [|done].
    unfold mret at 1, io_ret.
    rewrite sea_level_of_body_io.
    pose proof (sea_level_of_body_not_HTTPError hours v) as Hne.
    destruct (sea_level_of_body hours v) as [a|[]]; try done.
    by destruct (Hne status_code).
Qed.

Lemma getitem_not_HTTPError (v : value F) (k : string) (s : Z) :
  getitem v k ≠ Raise (HTTPError s).
Proof. intros Hs. by apply getitem_raises in Hs. Qed.

Lemma get_tide_extremes_eq (lat lon : F) (days : Z) (w : world F) :
  get_tide_extremes lat lon days w =
    if (1 <=? days) && (days <=? 10) then
      match datetime.add (utc_now w) (datetime.days days) with
      | Raise e => (Raise e, [])
      | Ok end_dt =>
          let rq := extremes_request lat lon (utc_now w) end_dt in
          (extremes_answer days (utc_now w) (stormglass w rq), [rq])
      end
    else (Raise (AssertionError "days must be 1–10"), []).
Proof.
  unfold get_tide_extremes, assert.
  destruct ((1 <=? days) && (days <=? 10)); [|done].
  unfold mbind at 1, io_bind. simpl.
  unfold mbind at 1, io_bind. simpl.
  unfold mbind at 1, io_bind. unfold lift at 1.
  destruct (datetime.add (utc_now w) (datetime.days days)) as [end_dt|e]; [|done].
  simpl. unfold try_except_HTTPError, _request, send.
  fold (extremes_request lat lon (utc_now w) end_dt).
  unfold extremes_answer.
  unfold mbind at 1, io_bind.
  unfold mbind at 1, io_bind.
  destruct (stormglass w _) as [|status body]; [done|].
  unfold is_error_status.
  destruct ((400 <=? status) && (status <? 600)).
  - unfold raise at 1, lift at 1.
    destruct (status =? 402); [|done].
    unfold mbind, io_bind, lift.
    by destruct (_find_synthetic_extremes days (utc_now w)).
  - destruct body as [v|]; [|done].
    unfold mret at 1, io_ret, lift.
    pose proof (getitem_not_HTTPError v "data") as Hne.
    destruct (getitem v "data") as [a|[]]; try done.
    by destruct (Hne status_code).
Qed.

End Calls.

(** ** The scan for extremes *)

Section Scan.

Context {F : Type} `{PyFloat F}.

Lemma index_of_nat {A} (l : list A) (k : nat) :
  index l (Z.of_nat k) =
    match l !! k with Some x => Ok x | None => Raise IndexError end.
Proof.
  unfold index.
  destruct (Z.of_nat k <? 0) eqn:Hk; [apply Z.ltb_lt in Hk; lia|].
  rewrite Hk. by rewrite Nat2Z.id.
Qed.

Lemma range_from_interior (n : nat) :
  range_from 1 (len (seq 0 n) - 1) = Z.of_nat <$> interior n.
Proof.
  unfold range_from, interior, len. rewrite length_seq.
  replace (Z.to_nat (Z.of_nat n - 1 - 1)) with (n - 2)%nat by lia.
  generalize (n - 2)%nat as m. intros m.
  rewrite <- (fmap_S_seq 0 m), <- !list_fmap_compose.
  apply list_fmap_ext. intros _ k _. simpl. lia.
Qed.

Lemma extremes_loop_eq (times : list string) (levels : list F) (ns : list nat) :
  length times = length levels ->
  Forall (fun k => 1 <= k /\ k + 1 < length levels)%nat ns ->
  forall acc,
  extremes_loop times levels (Z.of_nat <$> ns) acc =
    Ok (acc ++ omap (event_at_index times levels) ns).
Proof.
  intros Hlen Hns. induction Hns as [|k ns [Hk1 Hk2] _ IH]; intros acc.
  { simpl. by rewrite app_nil_r. }
  rewrite fmap_cons. simpl extremes_loop. simpl omap.
  replace (Z.of_nat k - 1) with (Z.of_nat (k - 1)) by lia.
  replace (Z.of_nat k + 1) with (Z.of_nat (k + 1)) by lia.
  unfold ge_at, le_at, extreme_at, event_at_index. rewrite !index_of_nat.
  destruct (lookup_lt_is_Some_2 times k) as [t Ht]; [lia|].
  destruct (lookup_lt_is_Some_2 levels (k - 1)) as [prev Hprev]; [lia|].
  destruct (lookup_lt_is_Some_2 levels k) as [cur Hcur]; [lia|].
  destruct (lookup_lt_is_Some_2 levels (k + 1)) as [next Hnext]; [lia|].
  rewrite Ht, Hprev, Hcur, Hnext. simpl. unfold kind_of.
  destruct (fge cur prev); simpl.
  - destruct (fge cur next); simpl.
    + rewrite IH. by rewrite <- app_assoc.
    + destruct (fle cur prev); simpl; [|by rewrite IH].
      destruct (fle cur next); simpl; [|by rewrite IH].
      rewrite IH. by rewrite <- app_assoc.
  - destruct (fle cur prev); simpl; [|by rewrite IH].
    destruct (fle cur next); simpl; [|by rewrite IH].
    rewrite IH. by rewrite <- app_assoc.
Qed.

Lemma Forall_interior (n : nat) :
  Forall (fun k => 1 <= k /\ k + 1 < n)%nat (interior n).
Proof.
  apply Forall_forall. intros k Hk%elem_of_seq. lia.
Qed.

Lemma range_from_len {A} (l : list A) :
  range_from 1 (len l - 1) = Z.of_nat <$> interior (length l).
Proof.
  rewrite <- range_from_interior. unfold len. by rewrite length_seq.
Qed.

(** The loop of the code computes the scan of the specification. *)
Lemma extremes_loop_scan (times : list string) (levels : list F) :
  length times = length levels ->
  extremes_loop times levels (range_from 1 (len levels - 1)) [] =
    Ok (scan times levels).
Proof.
  intros Hlen. rewrite range_from_len.
  rewrite extremes_loop_eq; auto using Forall_interior.
Qed.

Lemma _find_synthetic_extremes_eq (days : Z) (start_dt : datetime.t) :
  _find_synthetic_extremes days start_dt = FindSyntheticExtremes days start_dt.
Proof.
  unfold _find_synthetic_extremes, FindSyntheticExtremes.
  rewrite _sine_wave_tide_eq.
  destruct (representable start_dt (range (days * 24 + 1))); [|done].
  simpl. rewrite extremes_loop_scan; [done|].
  by rewrite !length_fmap.
Qed.

End Scan.

Section WaveProperties.

Context {F : Type} `{PyFloat F}.

Lemma instant_0 (t0 : datetime.t) : instant t0 0 = t0.
Proof. unfold instant, datetime.hours. lia. Qed.

Lemma instant_step (t0 : datetime.t) (h : Z) :
  instant t0 (h + 1) - instant t0 h = datetime.US_PER_HOUR.
Proof. unfold instant, datetime.hours. lia. Qed.

Lemma instant_lt (t0 : datetime.t) (h k : Z) :
  h < k -> instant t0 h < instant t0 k.
Proof.
  unfold instant, datetime.hours, datetime.US_PER_HOUR, datetime.US_PER_SECOND.
  lia.
Qed.

(** What a wave that was returned holds at each index. *)
Lemma _sine_wave_tide_Ok (hours : Z) (t0 : datetime.t) (tide : tide_dict string F) :
  _sine_wave_tide hours t0 = Ok tide ->
  tide = {| time := datetime.isoformat ∘ instant t0 <$> range hours;
            sea_level := level_at ∘ instant t0 <$> range hours |}.
Proof.
  rewrite _sine_wave_tide_eq.
  destruct (representable t0 (range hours)); congruence.
Qed.

Lemma lookup_levels (hours : Z) (t0 : datetime.t) (i : nat) (x : F) :
  (level_at ∘ instant t0 <$> range hours) !! i = Some x ->
  x = level_at (instant t0 (Z.of_nat i)).
Proof.
  intros Hx. rewrite list_lookup_fmap in Hx.
  destruct (range hours !! i) as [h|] eqn:Hh; [|done].
  assert (i < Z.to_nat hours)%nat as Hi.
  { rewrite <- length_range. eapply lookup_lt_Some. exact Hh. }
  rewrite lookup_range in Hh by done. simpl in Hx. congruence.
Qed.

(** C6, as amended.  For [hours] in [1, 240] and a start time [t0] whose
    last sample [t0 + (hours - 1) hours] is still a date Python can
    represent (at most 9999-12-31T23:59:59.999999), [_sine_wave_tide]
    returns two parallel lists of exactly [hours] entries; entry [i] is
    the ISO timestamp of [t0 + i hours] and the level at that instant;
    the instants start at [t0] and are one hour apart, and the
    timestamps strictly increase, as instants and as strings. *)
Theorem sine_wave_hourly_samples (hours : Z) (t0 : datetime.t) :
  1 <= hours <= 240 ->
  datetime.valid t0 ->
  instant t0 (hours - 1) <= datetime.max ->
  exists tide : tide_dict string F,
    _sine_wave_tide hours t0 = Ok tide
    /\ len (time tide) = hours
    /\ len (sea_level tide) = hours
    /\ (forall i : nat, Z.of_nat i < hours ->
          time tide !! i = Some (datetime.isoformat (instant t0 (Z.of_nat i)))
          /\ sea_level tide !! i = Some (level_at (instant t0 (Z.of_nat i))))
    /\ instant t0 0 = t0
    /\ (forall h : Z, instant t0 (h + 1) - instant t0 h = 3600 * datetime.US_PER_SECOND)
    /\ (forall h k : Z, h < k -> instant t0 h < instant t0 k)
    /\ (forall (i j : nat) (a b : string),
          (i < j)%nat ->
          time tide !! i = Some a -> time tide !! j = Some b ->
          String.ltb a b = true).
Proof.
  intros Hh Hv Hlast.
  pose proof (representable_range hours t0 Hv Hlast) as Hrep.
  eexists. split.
  { rewrite _sine_wave_tide_eq, Hrep. done. }
  simpl. unfold len. rewrite !length_fmap, !length_range.
  repeat split; try lia.
  - rewrite list_lookup_fmap, lookup_range by lia. done.
  - rewrite list_lookup_fmap, lookup_range by lia. done.
  - apply instant_0.
  - apply instant_step.
  - apply instant_lt.
  - intros i j a b Hij Ha Hb.
    assert (j < Z.to_nat hours)%nat as Hj.
    { apply lookup_lt_Some in Hb. by rewrite length_fmap, length_range in Hb. }
    rewrite list_lookup_fmap, lookup_range in Ha by lia.
    rewrite list_lookup_fmap, lookup_range in Hb by lia.
    injection Ha as <-. injection Hb as <-.
    apply isoformat_lt.
    + apply (representable_valid hours); [done|lia].
    + apply (representable_valid hours); [done|lia].
    + apply instant_lt. lia.
Qed.

(** Two waves agree wherever their samples fall on the same instant. *)
Lemma levels_agree_on_instants (h h' : Z) (t0 t0' : datetime.t)
    (tide tide' : tide_dict string F) (i j : nat) (x y : F) :
  _sine_wave_tide h t0 = Ok tide ->
  _sine_wave_tide h' t0' = Ok tide' ->
  sea_level tide !! i = Some x ->
  sea_level tide' !! j = Some y ->
  instant t0 (Z.of_nat i) = instant t0' (Z.of_nat j) ->
  x = level_at (instant t0 (Z.of_nat i)) /\ x = y.
Proof.
  intros Ht Ht' Hx Hy Heq.
  apply _sine_wave_tide_Ok in Ht, Ht'. subst tide tide'. simpl in *.
  apply lookup_levels in Hx, Hy. split; [done|]. congruence.
Qed.

End WaveProperties.

Lemma sine_wave_hourly_samples_witness :
  exists tide : tide_dict string R,
    _sine_wave_tide 240 a_moment = Ok tide /\ len (time tide) = 240.
Proof.
  destruct (sine_wave_hourly_samples (F:=R) 240 a_moment)
    as (tide & Htide & Hlen & _).
  - lia.
  - unfold datetime.valid, a_moment, datetime.min, datetime.max. lia.
  - vm_compute. discriminate.
  - exists tide. split; assumption.
Defined.

(** C6 as stated fails: started at the last representable instant, the
    second sample of a two-hour wave is past year 9999 and the call
    raises instead of returning two samples. *)
Lemma sine_wave_overflow :
  1 <= 2 <= 240 /\ datetime.valid datetime.max
  /\ _sine_wave_tide (F:=R) 2 datetime.max = Raise OverflowError.
Proof.
  split; [lia|]. split.
  - unfold datetime.valid, datetime.min, datetime.max. lia.
  - rewrite _sine_wave_tide_eq.
    replace (representable datetime.max (range 2)) with false
      by (vm_compute; reflexivity).
    reflexivity.
Qed.

(** ** The entry points *)

Section CallProperties.

Context {F : Type} `{PyFloat F}.

(** A call that sent a request passed the range check, computed the end
    of its window, sent that one request and nothing else, and returns
    what it makes of the answer. *)
Lemma sea_level_sent (lat lon : F) (hours : Z) (w : world F)
    (r : result (tide_dict (value F) (value F))) (sent : list (request F))
    (rq : request F) :
  get_tide_sea_level lat lon hours w = (r, sent) ->
  rq ∈ sent ->
  1 <= hours <= 240
  /\ datetime.validb (utc_now w + datetime.hours hours) = true
  /\ sent = [rq]
  /\ r = sea_level_answer hours (utc_now w) (stormglass w rq).
Proof.
  rewrite get_tide_sea_level_eq.
  destruct ((1 <=? hours) && (hours <=? 240)) eqn:Hr.
  2:{ intros [= <- <-] Hin. by apply elem_of_nil in Hin. }
  unfold datetime.add.
  destruct (datetime.validb (utc_now w + datetime.hours hours)) eqn:Hv.
  2:{ intros [= <- <-] Hin. by apply elem_of_nil in Hin. }
  simpl. intros [= <- <-] Hin. apply list_elem_of_singleton in Hin. subst rq.
  apply andb_true_iff in Hr as [?%Z.leb_le ?%Z.leb_le]. done.
Qed.

Lemma extremes_sent (lat lon : F) (days : Z) (w : world F)
    (r : result (value F)) (sent : list (request F)) (rq : request F) :
  get_tide_extremes lat lon days w = (r, sent) ->
  rq ∈ sent ->
  1 <= days <= 10
  /\ datetime.validb (utc_now w + datetime.days days) = true
  /\ sent = [rq]
  /\ r = extremes_answer days (utc_now w) (stormglass w rq).
Proof.
  rewrite get_tide_extremes_eq.
  destruct ((1 <=? days) && (days <=? 10)) eqn:Hr.
  2:{ intros [= <- <-] Hin. by apply elem_of_nil in Hin. }
  unfold datetime.add.
  destruct (datetime.validb (utc_now w + datetime.days days)) eqn:Hv.
  2:{ intros [= <- <-] Hin. by apply elem_of_nil in Hin. }
  simpl. intros [= <- <-] Hin. apply list_elem_of_singleton in Hin. subst rq.
  apply andb_true_iff in Hr as [?%Z.leb_le ?%Z.leb_le]. done.
Qed.

Lemma validb_max (d : datetime.t) : datetime.validb d = true -> d <= datetime.max.
Proof.
  unfold datetime.validb. intros [_ ?%Z.leb_le]%andb_true_iff. done.
Qed.

(** Once the end of the window is representable, so is every sample of
    the fallback. *)
Lemma representable_window (now : datetime.t) (hours : Z) :
  datetime.valid now -> 0 <= hours ->
  datetime.validb (now + datetime.hours hours) = true ->
  representable now (range (hours + 1)) = true.
Proof.
  intros Hv Hh Hend%validb_max. apply representable_range; [done|].
  by replace (hours + 1 - 1) with hours by lia.
Qed.

Lemma representable_shorter (now : datetime.t) (hours : Z) :
  representable now (range (hours + 1)) = true ->
  representable now (range hours) = true.
Proof.
  unfold representable. rewrite !forallb_forall.
  intros Hall h Hh%list_elem_of_In%elem_of_range.
  apply Hall, list_elem_of_In, elem_of_range. lia.
Qed.

(** C1.  When the request of a call was answered with status 402, the
    call does not raise: [get_tide_sea_level] returns the synthetic wave
    of [hours] samples started at the call's [now], and
    [get_tide_extremes] returns the synthetic extremes for [days]; the
    one request is all that was sent. *)
Theorem quota_exceeded_is_recovered (w : world F) (lat lon : F) :
  datetime.valid (utc_now w) ->
  (forall hours r sent rq body,
     get_tide_sea_level lat lon hours w = (r, sent) ->
     rq ∈ sent ->
     stormglass w rq = Response 402 body ->
     exists tide,
       _sine_wave_tide hours (utc_now w) = Ok tide
       /\ r = Ok (as_values tide)
       /\ len (time tide) = hours /\ len (sea_level tide) = hours
       /\ sent = [rq])
  /\ (forall days r sent rq body,
        get_tide_extremes lat lon days w = (r, sent) ->
        rq ∈ sent ->
        stormglass w rq = Response 402 body ->
        exists extremes,
          _find_synthetic_extremes days (utc_now w) = Ok extremes
          /\ r = Ok (extremes_value extremes)
          /\ sent = [rq]).
Proof.
  intros Hv. split.
  - intros hours r sent rq body Hcall Hin Hresp.
    destruct (sea_level_sent _ _ _ _ _ _ _ Hcall Hin) as (Hh & Hend & -> & ->).
    rewrite Hresp. simpl.
    assert (representable (utc_now w) (range hours) = true) as Hrep.
    { apply representable_shorter, representable_window; [done|lia|done]. }
    rewrite _sine_wave_tide_eq, Hrep. eexists. split; [done|]. simpl.
    unfold len. rewrite !length_fmap, !length_range. repeat split; lia.
  - intros days r sent rq body Hcall Hin Hresp.
    destruct (extremes_sent _ _ _ _ _ _ _ Hcall Hin) as (Hd & Hend & -> & ->).
    rewrite Hresp. simpl.
    assert (representable (utc_now w) (range (days * 24 + 1)) = true) as Hrep.
    { apply representable_window; [done|lia|].
      replace (datetime.hours (days * 24)) with (datetime.days days); [done|].
      unfold datetime.hours, datetime.days, datetime.US_PER_DAY. lia. }
    rewrite _find_synthetic_extremes_eq. unfold FindSyntheticExtremes.
    rewrite _sine_wave_tide_eq, Hrep. simpl. eexists. done.
Qed.

(** C2.  When the request of a call was answered with an HTTP error
    status (4xx or 5xx) other than 402, the call raises the [HTTPError]
    of that status and returns nothing; it computes no fallback and
    sends nothing more. *)
Theorem other_http_errors_propagate (w : world F) (lat lon : F) (status : Z) :
  400 <= status < 600 ->
  status <> 402 ->
  (forall hours r sent rq body,
     get_tide_sea_level lat lon hours w = (r, sent) ->
     rq ∈ sent ->
     stormglass w rq = Response status body ->
     r = Raise (HTTPError status) /\ sent = [rq])
  /\ (forall days r sent rq body,
        get_tide_extremes lat lon days w = (r, sent) ->
        rq ∈ sent ->
        stormglass w rq = Response status body ->
        r = Raise (HTTPError status) /\ sent = [rq]).
Proof.
  intros Hs Hne.
  assert (is_error_status status = true) as Herr.
  { unfold is_error_status. apply andb_true_iff. split; [apply Z.leb_le|apply Z.ltb_lt]; lia. }
  assert ((status =? 402) = false) as Hq by (apply Z.eqb_neq; done).
  split.
  - intros hours r sent rq body Hcall Hin Hresp.
    destruct (sea_level_sent _ _ _ _ _ _ _ Hcall Hin) as (_ & _ & -> & ->).
    rewrite Hresp. simpl. by rewrite Herr, Hq.
  - intros days r sent rq body Hcall Hin Hresp.
    destruct (extremes_sent _ _ _ _ _ _ _ Hcall Hin) as (_ & _ & -> & ->).
    rewrite Hresp. simpl. by rewrite Herr, Hq.
Qed.

(** The fallbacks raise nothing but [OverflowError]. *)
Lemma _sine_wave_tide_raises (hours : Z) (now : datetime.t) (e : exn) :
  _sine_wave_tide (F:=F) hours now = Raise e -> e = OverflowError.
Proof.
  rewrite _sine_wave_tide_eq.
  destruct (representable now (range hours)); congruence.
Qed.

Lemma _find_synthetic_extremes_raises (days : Z) (now : datetime.t) (e : exn) :
  _find_synthetic_extremes (F:=F) days now = Raise e -> e = OverflowError.
Proof.
  rewrite _find_synthetic_extremes_eq. unfold FindSyntheticExtremes.
  destruct (_sine_wave_tide (days * 24 + 1) now) as [tide|e'] eqn:Ht; simpl.
  - done.
  - intros [= <-]. by eapply _sine_wave_tide_raises.
Qed.

Lemma sea_level_answer_no_assertion (hours : Z) (now : datetime.t)
    (r : response F) (msg : string) :
  sea_level_answer hours now r ≠ Raise (AssertionError msg).
Proof.
  destruct r as [|status body]; simpl; [done|].
  destruct (is_error_status status).
  - destruct (status =? 402); [|done].
    destruct (_sine_wave_tide hours now) as [tide|e] eqn:Ht; simpl; [done|].
    apply _sine_wave_tide_raises in Ht. by subst e.
  - destruct body as [v|]; [|done].
    intros Hr. by apply sea_level_of_body_raises in Hr.
Qed.

Lemma extremes_answer_no_assertion (days : Z) (now : datetime.t)
    (r : response F) (msg : string) :
  extremes_answer days now r ≠ Raise (AssertionError msg).
Proof.
  destruct r as [|status body]; simpl; [done|].
  destruct (is_error_status status).
  - destruct (status =? 402); [|done].
    destruct (_find_synthetic_extremes days now) as [evs|e] eqn:Ht; simpl; [done|].
    apply _find_synthetic_extremes_raises in Ht. by subst e.
  - destruct body as [v|]; [|done].
    intros Hr. by apply getitem_raises in Hr.
Qed.

Lemma sea_level_assertion (lat lon : F) (hours : Z) (w : world F) :
  ((exists msg, (get_tide_sea_level lat lon hours w).1 = Raise (AssertionError msg))
     <-> ~ 1 <= hours <= 240)
  /\ (~ 1 <= hours <= 240 -> (get_tide_sea_level lat lon hours w).2 = []).
Proof.
  rewrite get_tide_sea_level_eq.
  destruct ((1 <=? hours) && (hours <=? 240)) eqn:Hr.
  - apply andb_true_iff in Hr as [?%Z.leb_le ?%Z.leb_le].
    split; [split|]; [|lia|lia].
    intros [msg Hmsg]. exfalso. revert Hmsg. unfold datetime.add.
    destruct (datetime.validb _); simpl; [|done].
    apply sea_level_answer_no_assertion.
  - apply andb_false_iff in Hr as [?%Z.leb_gt| ?%Z.leb_gt];
      (split; [split|]; [intros _; lia|eauto|done]).
Qed.

Lemma extremes_assertion (lat lon : F) (days : Z) (w : world F) :
  ((exists msg, (get_tide_extremes lat lon days w).1 = Raise (AssertionError msg))
     <-> ~ 1 <= days <= 10)
  /\ (~ 1 <= days <= 10 -> (get_tide_extremes lat lon days w).2 = []).
Proof.
  rewrite get_tide_extremes_eq.
  destruct ((1 <=? days) && (days <=? 10)) eqn:Hr.
  - apply andb_true_iff in Hr as [?%Z.leb_le ?%Z.leb_le].
    split; [split|]; [|lia|lia].
    intros [msg Hmsg]. exfalso. revert Hmsg. unfold datetime.add.
    destruct (datetime.validb _); simpl; [|done].
    apply extremes_answer_no_assertion.
  - apply andb_false_iff in Hr as [?%Z.leb_gt| ?%Z.leb_gt];
      (split; [split|]; [intros _; lia|eauto|done]).
Qed.

(** C3.  [get_tide_sea_level] raises the [AssertionError] of its range
    check exactly when [hours] is outside [1, 240], [get_tide_extremes]
    exactly when [days] is outside [1, 10]; a call that fails so has
    sent no request; [hours = 240] and [days = 10] pass the check. *)
Theorem argument_range_is_checked (w : world F) (lat lon : F) :
  (forall hours : Z,
     ((exists msg, (get_tide_sea_level lat lon hours w).1 = Raise (AssertionError msg))
        <-> ~ 1 <= hours <= 240)
     /\ (~ 1 <= hours <= 240 -> (get_tide_sea_level lat lon hours w).2 = []))
  /\ (forall days : Z,
        ((exists msg, (get_tide_extremes lat lon days w).1 = Raise (AssertionError msg))
           <-> ~ 1 <= days <= 10)
        /\ (~ 1 <= days <= 10 -> (get_tide_extremes lat lon days w).2 = []))
  /\ (forall msg, (get_tide_sea_level lat lon 240 w).1 ≠ Raise (AssertionError msg))
  /\ (forall msg, (get_tide_extremes lat lon 10 w).1 ≠ Raise (AssertionError msg)).
Proof.
  split; [intros hours; apply sea_level_assertion|].
  split; [intros days; apply extremes_assertion|].
  split; intros msg Hmsg.
  - destruct (sea_level_assertion lat lon 240 w) as [[Hout _] _].
    destruct Hout; [eauto|lia].
  - destruct (extremes_assertion lat lon 10 w) as [[Hout _] _].
    destruct Hout; [eauto|lia].
Qed.

Lemma comprehension_length (k : string) (rows xs : list (value F)) :
  comprehension k rows = Ok xs -> length xs = length rows.
Proof.
  revert xs. induction rows as [|row rows IH]; intros xs; simpl.
  - by intros [= <-].
  - destruct (getitem row k) as [x|]; simpl; [|done].
    destruct (comprehension k rows) as [xs'|]; simpl; [|done].
    intros [= <-]. simpl. by rewrite (IH xs').
Qed.

Lemma len_slice_to {A} (n : Z) (l : list A) :
  0 <= n -> len (slice_to n l) = Z.min n (len l).
Proof.
  intros Hn. unfold slice_to, len.
  destruct (0 <=? n) eqn:H0; [|apply Z.leb_gt in H0; lia].
  rewrite length_take. lia.
Qed.

(** A body that was read successfully had a [data] entry that could be
    iterated; both returned lists are its rows cut to [hours]. *)
Lemma sea_level_of_body_Ok (hours : Z) (body : value F)
    (series : tide_dict (value F) (value F)) :
  0 <= hours ->
  sea_level_of_body hours body = Ok series ->
  exists data rows,
    getitem body "data" = Ok data /\ iterate data = Ok rows
    /\ len (time series) = Z.min hours (len rows)
    /\ len (sea_level series) = Z.min hours (len rows).
Proof.
  intros Hh. unfold sea_level_of_body.
  destruct (getitem body "data") as [data|] eqn:Hd; simpl; [|done].
  destruct (iterate data) as [rows|] eqn:Hrows; simpl; [|done].
  destruct (comprehension "time" rows) as [ts|] eqn:Hts; simpl; [|done].
  destruct (comprehension "sg" rows) as [ls|] eqn:Hls; simpl; [|done].
  intros [= <-]. exists data, rows. simpl.
  rewrite !len_slice_to by done. unfold len.
  rewrite (comprehension_length _ _ _ Hts), (comprehension_length _ _ _ Hls).
  done.
Qed.

(** C9, as amended.  When the provider answered the request with a 2xx
    status and the call returned, both returned lists hold the first
    [hours] rows of the provider's [data]: their length is the smaller
    of [hours] and the number of rows, so it is [hours] exactly when the
    provider sent at least [hours] rows. *)
Theorem sea_level_truncated_to_hours (w : world F) (lat lon : F) (hours : Z)
    (series : tide_dict (value F) (value F)) (sent : list (request F))
    (rq : request F) (status : Z) (body : option (value F)) :
  get_tide_sea_level lat lon hours w = (Ok series, sent) ->
  rq ∈ sent ->
  stormglass w rq = Response status body ->
  200 <= status < 300 ->
  exists v data rows,
    body = Some v /\ getitem v "data" = Ok data /\ iterate data = Ok rows
    /\ len (time series) = Z.min hours (len rows)
    /\ len (sea_level series) = Z.min hours (len rows)
    /\ (len (time series) = hours <-> hours <= len rows).
Proof.
  intros Hcall Hin Hresp Hs.
  destruct (sea_level_sent _ _ _ _ _ _ _ Hcall Hin) as (Hh & _ & _ & Hr).
  rewrite Hresp in Hr. simpl in Hr.
  assert (is_error_status status = false) as Herr.
  { unfold is_error_status. apply andb_false_iff. left. apply Z.leb_gt. lia. }
  rewrite Herr in Hr. destruct body as [v|]; [|done].
  symmetry in Hr. apply sea_level_of_body_Ok in Hr as (data & rows & ? & ? & Ht & Hl); [|lia].
  exists v, data, rows. repeat split; try done; lia.
Qed.

(** C10.  Whenever [get_tide_sea_level] returns, its ["time"] and
    ["sea_level"] lists have the same length; on the success path this
    holds for every [data] the provider sends, with fewer than [hours]
    rows or more. *)
Theorem sea_level_lists_parallel (w : world F) (lat lon : F) (hours : Z)
    (series : tide_dict (value F) (value F)) (sent : list (request F)) :
  get_tide_sea_level lat lon hours w = (Ok series, sent) ->
  length (time series) = length (sea_level series).
Proof.
  rewrite get_tide_sea_level_eq.
  destruct ((1 <=? hours) && (hours <=? 240)) eqn:Hr; [|done].
  apply andb_true_iff in Hr as [Hlo%Z.leb_le Hhi%Z.leb_le].
  destruct (datetime.add (utc_now w) (datetime.hours hours)) as [end_dt|]; [|done].
  simpl. intros [= Hr _]. revert Hr.
  destruct (stormglass w _) as [|status body]; simpl; [done|].
  destruct (is_error_status status).
  - destruct (status =? 402); [|done].
    destruct (_sine_wave_tide hours (utc_now w)) as [tide|] eqn:Ht; simpl; [|done].
    intros [= <-]. apply _sine_wave_tide_Ok in Ht. subst tide. simpl.
    by rewrite !length_fmap.
  - destruct body as [v|]; [|done].
    intros (data & rows & _ & _ & Ht & Hl)%sea_level_of_body_Ok; [|lia].
    unfold len in *. lia.
Qed.

(** The fallback of [get_tide_sea_level] does not depend on the
    coordinates of the call. *)
Lemma fallback_ignores_location (w w' : world F) (lat lon lat' lon' : F) (hours : Z)
    (r r' : result (tide_dict (value F) (value F))) (sent sent' : list (request F))
    (rq rq' : request F) (body body' : option (value F)) :
  utc_now w = utc_now w' ->
  get_tide_sea_level lat lon hours w = (r, sent) ->
  rq ∈ sent -> stormglass w rq = Response 402 body ->
  get_tide_sea_level lat' lon' hours w' = (r', sent') ->
  rq' ∈ sent' -> stormglass w' rq' = Response 402 body' ->
  r = r'.
Proof.
  intros Hnow Hcall Hin Hresp Hcall' Hin' Hresp'.
  destruct (sea_level_sent _ _ _ _ _ _ _ Hcall Hin) as (_ & _ & _ & ->).
  destruct (sea_level_sent _ _ _ _ _ _ _ Hcall' Hin') as (_ & _ & _ & ->).
  by rewrite Hresp, Hresp', Hnow.
Qed.

End CallProperties.

(** ** The extremes *)

Section ScanProperties.

Context {F : Type} `{PyFloat F}.

Lemma omap_lookup {A B} (f : A -> option B) (l : list A) (q : nat) (y : B) :
  omap f l !! q = Some y ->
  exists j a, l !! j = Some a /\ f a = Some y.
Proof.
  intros Hq. apply list_elem_of_lookup_2, list_elem_of_omap in Hq as (a & Ha & Hf).
  apply list_elem_of_lookup in Ha as [j Hj]. eauto.
Qed.

(** [omap] keeps the order of the list it filters. *)
Lemma omap_lookup_order {A B} (f : A -> option B) (l : list A) :
  forall (p q : nat) (x y : B),
  (p < q)%nat ->
  omap f l !! p = Some x -> omap f l !! q = Some y ->
  exists i j a b,
    (i < j)%nat /\ l !! i = Some a /\ l !! j = Some b
    /\ f a = Some x /\ f b = Some y.
Proof.
  induction l as [|a l IH]; intros p q x y Hpq Hp Hq; [done|].
  simpl in Hp, Hq. destruct (f a) as [b0|] eqn:Hfa.
  - destruct q as [|q]; [lia|]. simpl in Hq. destruct p as [|p]; simpl in Hp.
    + injection Hp as <-.
      destruct (omap_lookup _ _ _ _ Hq) as (j & b & Hj & Hfb).
      exists 0%nat, (S j), a, b. repeat split; try done. lia.
    + destruct (IH p q x y) as (i & j & a' & b' & Hij & Hi & Hj & Hx & Hy);
        [lia|done|done|].
      exists (S i), (S j), a', b'. repeat split; try done. lia.
  - destruct (IH p q x y) as (i & j & a' & b' & Hij & Hi & Hj & Hx & Hy);
      [lia|done|done|].
    exists (S i), (S j), a', b'. repeat split; try done. lia.
Qed.

Lemma lookup_interior (n i k : nat) :
  interior n !! i = Some k -> k = S i /\ (1 <= k)%nat /\ (k + 1 < n)%nat.
Proof. unfold interior. intros [-> Hi]%lookup_seq. lia. Qed.

(** The events of a scan come from interior indices, in increasing order. *)
Lemma scan_in_scan_order (times : list string) (levels : list F)
    (p q : nat) (e1 e2 : extreme F) :
  (p < q)%nat ->
  scan times levels !! p = Some e1 -> scan times levels !! q = Some e2 ->
  exists i j : nat,
    (1 <= i)%nat /\ (i < j)%nat /\ (j + 1 < length levels)%nat
    /\ event_at_index times levels i = Some e1
    /\ event_at_index times levels j = Some e2.
Proof.
  intros Hpq Hp Hq.
  destruct (omap_lookup_order _ _ _ _ _ _ Hpq Hp Hq)
    as (i & j & a & b & Hij & Hi & Hj & Ha & Hb).
  apply lookup_interior in Hi as (-> & ? & ?), Hj as (-> & ? & ?).
  exists (S i), (S j). repeat split; try done; lia.
Qed.

Lemma scan_elem (times : list string) (levels : list F) (e : extreme F) :
  e ∈ scan times levels ->
  exists i : nat,
    (1 <= i)%nat /\ (i + 1 < length levels)%nat
    /\ event_at_index times levels i = Some e.
Proof.
  intros (k & Hk & He)%list_elem_of_omap.
  apply elem_of_seq in Hk. exists k. repeat split; try done; lia.
Qed.

Lemma event_at_index_Some (times : list string) (levels : list F) (i : nat)
    (e : extreme F) :
  event_at_index times levels i = Some e ->
  times !! i = Some (ex_time e) /\ levels !! i = Some (height e).
Proof.
  unfold event_at_index.
  destruct (times !! i) as [t|]; [|done].
  destruct (levels !! (i - 1)%nat) as [prev|]; [|done].
  destruct (levels !! i) as [cur|]; [|done].
  destruct (levels !! (i + 1)%nat) as [next|]; [|done].
  destruct (kind_of prev cur next); simpl; [|done].
  by intros [= <-].
Qed.

Lemma flt_true (a b : F) : flt a b = true -> fle a b = true /\ fle b a = false.
Proof.
  unfold flt. intros [? ?%negb_true_iff]%andb_true_iff. done.
Qed.

Lemma kind_of_rising (prev cur next : F) :
  flt prev cur = true -> flt cur next = true -> kind_of prev cur next = None.
Proof.
  intros [Hpc Hcp]%flt_true [Hcn Hnc]%flt_true.
  unfold kind_of, fge. by rewrite Hpc, Hnc, Hcp.
Qed.

Lemma kind_of_falling (prev cur next : F) :
  flt cur prev = true -> flt next cur = true -> kind_of prev cur next = None.
Proof.
  intros [Hcp Hpc]%flt_true [Hnc Hcn]%flt_true.
  unfold kind_of, fge. by rewrite Hpc, Hcp, Hcn.
Qed.

Lemma omap_all_None {A B} (f : A -> option B) (l : list A) :
  (forall a, a ∈ l -> f a = None) -> omap f l = [].
Proof.
  induction l as [|a l IH]; intros Hall; [done|]. simpl.
  rewrite (Hall a) by apply list_elem_of_here.
  apply IH. intros b Hb. apply Hall. by apply list_elem_of_further.
Qed.

(** A level list that only rises, or only falls, has no extreme. *)
Lemma scan_monotonic (times : list string) (levels : list F) :
  strictly_monotonic levels -> scan times levels = [].
Proof.
  intros Hmono. apply omap_all_None. intros i Hi%elem_of_seq.
  unfold event_at_index.
  destruct (times !! i) as [t|]; [|done].
  destruct (levels !! (i - 1)%nat) as [prev|] eqn:Hprev; [|done].
  destruct (levels !! i) as [cur|] eqn:Hcur; [|done].
  destruct (levels !! (i + 1)%nat) as [next|] eqn:Hnext; [|done].
  replace i with (S (i - 1)) in Hcur by lia.
  replace (i + 1)%nat with (S i) in Hnext by lia.
  assert (levels !! i = Some cur) as Hcur'.
  { replace i with (S (i - 1)) at 1 by lia. done. }
  destruct Hmono as [Hup|Hdown].
  - rewrite kind_of_rising; [done| |]; eauto.
  - rewrite kind_of_falling; [done| |]; eauto.
Qed.

(** C7.  [_find_synthetic_extremes] computes the specification's
    [FindSyntheticExtremes]: it samples the wave over [days * 24 + 1]
    hours from [start_dt] and emits, for each interior index [1 .. N - 2]
    in turn, a high event when the level is at least both neighbours,
    else a low event when it is at most both; a level that passes both
    tests is high; the events come in the order of their indices, so
    their timestamps strictly increase. *)
Theorem find_synthetic_extremes_scans (days : Z) (start_dt : datetime.t) :
  _find_synthetic_extremes days start_dt = FindSyntheticExtremes days start_dt
  /\ (forall tide : tide_dict string F,
        0 <= days -> _sine_wave_tide (days * 24 + 1) start_dt = Ok tide ->
        len (sea_level tide) = days * 24 + 1
        /\ _find_synthetic_extremes days start_dt
           = Ok (omap (event_at_index (time tide) (sea_level tide))
                      (seq 1 (Z.to_nat (days * 24 + 1) - 2))))
  /\ (forall prev cur next : F,
        fge cur prev = true -> fge cur next = true ->
        kind_of prev cur next = Some high)
  /\ (forall prev cur next : F,
        kind_of prev cur next = Some low <->
        ~ (fge cur prev = true /\ fge cur next = true)
        /\ fle cur prev = true /\ fle cur next = true)
  /\ (forall (times : list string) (levels : list F) (p q : nat) (e1 e2 : extreme F),
        (p < q)%nat ->
        scan times levels !! p = Some e1 -> scan times levels !! q = Some e2 ->
        exists i j : nat,
          (1 <= i)%nat /\ (i < j)%nat /\ (j + 1 < length levels)%nat
          /\ event_at_index times levels i = Some e1
          /\ event_at_index times levels j = Some e2)
  /\ (forall (extremes : list (extreme F)) (p q : nat) (e1 e2 : extreme F),
        _find_synthetic_extremes days start_dt = Ok extremes ->
        (p < q)%nat ->
        extremes !! p = Some e1 -> extremes !! q = Some e2 ->
        String.ltb (ex_time e1) (ex_time e2) = true).
Proof.
  split; [apply _find_synthetic_extremes_eq|].
  split.
  { intros tide Hd Ht. rewrite _find_synthetic_extremes_eq.
    unfold FindSyntheticExtremes. rewrite Ht. simpl.
    apply _sine_wave_tide_Ok in Ht. subst tide. simpl.
    unfold scan, interior, len. rewrite !length_fmap, !length_range.
    split; [lia|done]. }
  split.
  { intros prev cur next Hp Hn. unfold kind_of. by rewrite Hp, Hn. }
  split.
  { intros prev cur next. unfold kind_of.
    destruct (fge cur prev), (fge cur next), (fle cur prev), (fle cur next);
      simpl; split; try done; try (intros (Hn & _ & _); by destruct Hn);
      try (intros (_ & ? & ?); done); intros _; repeat split; try done;
      intros [? ?]; done. }
  split; [apply scan_in_scan_order|].
  intros extremes p q e1 e2. rewrite _find_synthetic_extremes_eq.
  unfold FindSyntheticExtremes. rewrite _sine_wave_tide_eq.
  destruct (representable start_dt (range (days * 24 + 1))) eqn:Hrep; simpl; [|done].
  intros [= <-] Hpq Hp Hq.
  destruct (scan_in_scan_order _ _ _ _ _ _ Hpq Hp Hq) as (i & j & Hi & Hij & Hj & He1 & He2).
  rewrite length_fmap, length_range in Hj.
  apply event_at_index_Some in He1 as [Ht1 _], He2 as [Ht2 _].
  rewrite list_lookup_fmap, lookup_range in Ht1 by lia.
  rewrite list_lookup_fmap, lookup_range in Ht2 by lia.
  injection Ht1 as <-. injection Ht2 as <-.
  apply isoformat_lt.
  - apply (representable_valid (days * 24 + 1)); [done|lia].
  - apply (representable_valid (days * 24 + 1)); [done|lia].
  - apply instant_lt. lia.
Qed.

(** C8.  For [days] in [1, 10], every event [_find_synthetic_extremes]
    returns is the one of an interior sample [1 .. days * 24 - 1]: its
    time is neither the timestamp of sample 0 nor that of the last
    sample [days * 24]; the call does return when the window is
    representable; and a level list that is strictly monotonic over the
    scanned window gives no event at all. *)
Theorem extremes_exclude_boundaries (days : Z) (t0 : datetime.t) :
  1 <= days <= 10 ->
  (datetime.valid t0 -> instant t0 (days * 24) <= datetime.max ->
   exists extremes, _find_synthetic_extremes days t0 = Ok extremes)
  /\ (forall extremes e,
        _find_synthetic_extremes days t0 = Ok extremes -> e ∈ extremes ->
        (exists i : Z,
           1 <= i <= days * 24 - 1
           /\ ex_time e = datetime.isoformat (instant t0 i)
           /\ height e = level_at (instant t0 i))
        /\ ex_time e <> datetime.isoformat (instant t0 0)
        /\ ex_time e <> datetime.isoformat (instant t0 (days * 24)))
  /\ (forall tide,
        _sine_wave_tide (days * 24 + 1) t0 = Ok tide ->
        strictly_monotonic (sea_level tide) ->
        _find_synthetic_extremes days t0 = Ok [])
  /\ (forall (times : list string) (levels : list F),
        length times = length levels ->
        strictly_monotonic levels ->
        extremes_loop times levels (range_from 1 (len levels - 1)) [] = Ok []).
Proof.
  intros Hd. rewrite _find_synthetic_extremes_eq. unfold FindSyntheticExtremes.
  split.
  { intros Hv Hlast. rewrite _sine_wave_tide_eq, representable_range; [|done|].
    - simpl. eauto.
    - by replace (days * 24 + 1 - 1) with (days * 24) by lia. }
  split.
  { intros extremes e. rewrite _sine_wave_tide_eq.
    destruct (representable t0 (range (days * 24 + 1))) eqn:Hrep; simpl; [|done].
    intros [= <-] (i & Hi1 & Hi2 & He)%scan_elem.
    rewrite length_fmap, length_range in Hi2.
    apply event_at_index_Some in He as [Ht Hl].
    rewrite list_lookup_fmap, lookup_range in Ht by lia.
    rewrite list_lookup_fmap, lookup_range in Hl by lia. simpl in Ht, Hl.
    injection Ht as Ht. injection Hl as Hl.
    assert (forall h, 0 <= h < days * 24 + 1 -> datetime.valid (instant t0 h)) as Hvalid.
    { intros h Hh. by apply (representable_valid (days * 24 + 1)). }
    split; [exists (Z.of_nat i); split; [lia|done]|].
    rewrite <- Ht.
    split; intros Heq; apply isoformat_inj in Heq; try (apply Hvalid; lia);
      unfold instant, datetime.hours, datetime.US_PER_HOUR, datetime.US_PER_SECOND in Heq;
      lia. }
  split.
  { intros tide -> Hmono. simpl. by rewrite scan_monotonic. }
  intros times levels Hlen Hmono.
  rewrite extremes_loop_scan by done. by rewrite scan_monotonic.
Qed.

End ScanProperties.

(** ** The wave as a function of absolute time *)

Section AbsoluteTime.

Context {F : Type} `{PyFloat F}.

(** C4.  A level of the synthetic wave depends on the absolute instant
    of its sample only: it is [level_at] of that instant, so two waves,
    whatever their lengths and start times, agree wherever their samples
    fall on the same instant.  Neither [_sine_wave_tide] nor [level_at]
    takes a latitude or a longitude, and the fallback of
    [get_tide_sea_level] is the same wherever the call is located. *)
Theorem sine_wave_absolute_time :
  (forall (h h' : Z) (t0 t0' : datetime.t) (tide tide' : tide_dict string F)
          (i j : nat) (x y : F),
     _sine_wave_tide h t0 = Ok tide ->
     _sine_wave_tide h' t0' = Ok tide' ->
     sea_level tide !! i = Some x ->
     sea_level tide' !! j = Some y ->
     instant t0 (Z.of_nat i) = instant t0' (Z.of_nat j) ->
     x = level_at (instant t0 (Z.of_nat i)) /\ x = y)
  /\ (forall (w w' : world F) (lat lon lat' lon' : F) (hours : Z)
             (r r' : result (tide_dict (value F) (value F)))
             (sent sent' : list (request F)) (rq rq' : request F)
             (body body' : option (value F)),
        utc_now w = utc_now w' ->
        get_tide_sea_level lat lon hours w = (r, sent) ->
        rq ∈ sent -> stormglass w rq = Response 402 body ->
        get_tide_sea_level lat' lon' hours w' = (r', sent') ->
        rq' ∈ sent' -> stormglass w' rq' = Response 402 body' ->
        r = r').
Proof.
  split.
  - intros. eapply levels_agree_on_instants; eassumption.
  - intros. eapply fallback_ignores_location; eassumption.
Qed.

(** The calls in a world that answers every request with [r]. *)
Lemma answering_sea_level (now : datetime.t) (r : response F) (lat lon : F)
    (hours : Z) :
  1 <= hours <= 240 ->
  datetime.validb (now + datetime.hours hours) = true ->
  get_tide_sea_level lat lon hours (answering now r) =
    (sea_level_answer hours now r,
     [sea_level_request lat lon now (now + datetime.hours hours)]).
Proof.
  intros Hh Hv. rewrite get_tide_sea_level_eq.
  replace ((1 <=? hours) && (hours <=? 240)) with true.
  2:{ symmetry. apply andb_true_iff. split; apply Z.leb_le; lia. }
  unfold datetime.add. simpl. by rewrite Hv.
Qed.

Lemma answering_extremes (now : datetime.t) (r : response F) (lat lon : F)
    (days : Z) :
  1 <= days <= 10 ->
  datetime.validb (now + datetime.days days) = true ->
  get_tide_extremes lat lon days (answering now r) =
    (extremes_answer days now r,
     [extremes_request lat lon now (now + datetime.days days)]).
Proof.
  intros Hd Hv. rewrite get_tide_extremes_eq.
  replace ((1 <=? days) && (days <=? 10)) with true.
  2:{ symmetry. apply andb_true_iff. split; apply Z.leb_le; lia. }
  unfold datetime.add. simpl. by rewrite Hv.
Qed.

End AbsoluteTime.

(** ** The statements at concrete calls *)

Lemma a_moment_valid : datetime.valid a_moment.
Proof. unfold datetime.valid, a_moment, datetime.min, datetime.max. lia. Qed.

Lemma quota_exceeded_is_recovered_witness :
  (exists tide,
     get_tide_sea_level 55.66%R 12.56%R 24 (answering a_moment (Response 402 None))
       = (Ok (as_values tide),
          [sea_level_request 55.66%R 12.56%R a_moment (a_moment + datetime.hours 24)])
     /\ len (sea_level tide) = 24)
  /\ (exists extremes,
        get_tide_extremes 55.66%R 12.56%R 1 (answering a_moment (Response 402 None))
          = (Ok (extremes_value extremes),
             [extremes_request 55.66%R 12.56%R a_moment (a_moment + datetime.days 1)])).
Proof.
  destruct (quota_exceeded_is_recovered
              (answering a_moment (Response 402 None)) 55.66%R 12.56%R a_moment_valid)
    as [Hsea Hext].
  split.
  - edestruct (Hsea 24) as (tide & _ & Hr & _ & Hlen & _).
    + apply answering_sea_level; [lia|reflexivity].
    + apply list_elem_of_here.
    + reflexivity.
    + exists tide. split; [|exact Hlen].
      rewrite answering_sea_level by (lia || reflexivity). by rewrite Hr.
  - edestruct (Hext 1) as (extremes & _ & Hr & _).
    + apply answering_extremes; [lia|reflexivity].
    + apply list_elem_of_here.
    + reflexivity.
    + exists extremes.
      rewrite answering_extremes by (lia || reflexivity). by rewrite Hr.
Defined.

Lemma other_http_errors_propagate_witness :
  get_tide_sea_level 55.66%R 12.56%R 24 (answering a_moment (Response 500 None))
    = (Raise (HTTPError 500),
       [sea_level_request 55.66%R 12.56%R a_moment (a_moment + datetime.hours 24)])
  /\ (get_tide_extremes 55.66%R 12.56%R 3 (answering a_moment (Response 500 None))).1
     = Raise (HTTPError 500).
Proof.
  destruct (other_http_errors_propagate
              (answering a_moment (Response 500 None)) 55.66%R 12.56%R 500)
    as [Hsea Hext]; [lia|lia|].
  split.
  - edestruct (Hsea 24) as [Hr _].
    + apply answering_sea_level; [lia|reflexivity].
    + apply list_elem_of_here.
    + reflexivity.
    + rewrite answering_sea_level by (lia || reflexivity). by rewrite Hr.
  - edestruct (Hext 3) as [Hr _].
    + apply answering_extremes; [lia|reflexivity].
    + apply list_elem_of_here.
    + reflexivity.
    + rewrite answering_extremes by (lia || reflexivity). by rewrite Hr.
Defined.

Lemma argument_range_is_checked_witness :
  (exists msg,
     (get_tide_sea_level 55.66%R 12.56%R 241 (answering a_moment (Response 200 None))).1
       = Raise (AssertionError msg))
  /\ (get_tide_sea_level 55.66%R 12.56%R 0 (answering a_moment (Response 200 None))).2 = []
  /\ (exists msg,
        (get_tide_extremes 55.66%R 12.56%R 11 (answering a_moment (Response 200 None))).1
          = Raise (AssertionError msg)).
Proof.
  destruct (argument_range_is_checked
              (answering a_moment (Response 200 None)) 55.66%R 12.56%R)
    as (Hsea & Hext & _).
  split; [|split].
  - apply (Hsea 241). lia.
  - apply (Hsea 0). lia.
  - apply (Hext 11). lia.
Defined.

Lemma sine_wave_absolute_time_witness :
  (exists (tide tide' : tide_dict string R) (x y : R),
     _sine_wave_tide 3 0 = Ok tide
     /\ _sine_wave_tide 5 datetime.US_PER_HOUR = Ok tide'
     /\ sea_level tide !! 1%nat = Some x
     /\ sea_level tide' !! 0%nat = Some y
     /\ x = y)
  /\ (get_tide_sea_level 55.66%R 12.56%R 24 (answering a_moment (Response 402 None))).1
     = (get_tide_sea_level (-33.9)%R 18.4%R 24 (answering a_moment (Response 402 None))).1.
Proof.
  destruct (sine_wave_absolute_time (F:=R)) as [Hwave Hplace].
  split.
  - eexists _, _, _, _. split; [|split; [|split; [|split]]]; cycle 4.
    + eapply (Hwave 3 5 0 datetime.US_PER_HOUR _ _ 1%nat 0%nat).
      * rewrite _sine_wave_tide_eq. reflexivity.
      * rewrite _sine_wave_tide_eq. reflexivity.
      * reflexivity.
      * reflexivity.
      * reflexivity.
    + rewrite _sine_wave_tide_eq. reflexivity.
    + rewrite _sine_wave_tide_eq. reflexivity.
    + reflexivity.
    + reflexivity.
  - rewrite !answering_sea_level by (lia || reflexivity).
    eapply (Hplace (answering a_moment (Response 402 None))
                   (answering a_moment (Response 402 None))
                   55.66%R 12.56%R (-33.9)%R 18.4%R 24).
    + reflexivity.
    + apply answering_sea_level; [lia|reflexivity].
    + apply list_elem_of_here.
    + reflexivity.
    + apply answering_sea_level; [lia|reflexivity].
    + apply list_elem_of_here.
    + reflexivity.
Defined.

Lemma find_synthetic_extremes_scans_witness :
  _find_synthetic_extremes (F:=R) 1 a_moment = FindSyntheticExtremes 1 a_moment
  /\ kind_of 1%R 1%R 1%R = Some high.
Proof.
  destruct (find_synthetic_extremes_scans (F:=R) 1 a_moment)
    as (Heq & _ & Hhigh & _).
  split; [exact Heq|].
  apply Hhigh; unfold fge; simpl; destruct (Rle_dec 1 1) as [|Hn]; try done;
    exfalso; apply Hn; lra.
Defined.

Lemma rising_levels : strictly_monotonic [1%R; 2%R; 3%R].
Proof.
  left. intros i a b Ha Hb.
  destruct i as [|[|i]]; simpl in Ha, Hb;
    try (injection Ha as <-; injection Hb as <-; unfold flt; simpl;
         repeat destruct (Rle_dec _ _); try done; exfalso; lra).
  destruct i; done.
Qed.

Lemma extremes_exclude_boundaries_witness :
  (exists extremes : list (extreme R),
     _find_synthetic_extremes 1 a_moment = Ok extremes)
  /\ extremes_loop ["t0"; "t1"; "t2"] [1%R; 2%R; 3%R]
       (range_from 1 (len [1%R; 2%R; 3%R] - 1)) [] = Ok [].
Proof.
  destruct (extremes_exclude_boundaries (F:=R) 1 a_moment) as (Hok & _ & _ & Hmono);
    [lia|].
  split.
  - apply Hok; [apply a_moment_valid|]. vm_compute. discriminate.
  - apply Hmono; [reflexivity|apply rising_levels].
Defined.

Lemma one_row_call :
  get_tide_sea_level 55.66%R 12.56%R 2 (answering a_moment (Response 200 (Some one_row_body)))
  = (Ok {| time := [VStr "2023-11-14T22:00:00+00:00"]; sea_level := [VFloat 1%R] |},
     [sea_level_request 55.66%R 12.56%R a_moment (a_moment + datetime.hours 2)]).
Proof. rewrite answering_sea_level by (lia || reflexivity). reflexivity. Qed.

(** C9 as stated fails: the provider answers 200 with a single row to a
    call for two hours, and the call returns lists of length 1, not 2. *)
Lemma sea_level_shorter_than_hours :
  exists (series : tide_dict (value R) (value R)) (sent : list (request R)),
    get_tide_sea_level 55.66%R 12.56%R 2
        (answering a_moment (Response 200 (Some one_row_body)))
      = (Ok series, sent)
    /\ len (time series) = 1 /\ len (sea_level series) = 1
    /\ len (time series) <> 2.
Proof.
  eexists _, _. split; [apply one_row_call|]. simpl. unfold len. simpl. lia.
Qed.

Lemma sea_level_truncated_to_hours_witness :
  exists series : tide_dict (value R) (value R),
    (get_tide_sea_level 55.66%R 12.56%R 2
        (answering a_moment (Response 200 (Some one_row_body)))).1 = Ok series
    /\ len (time series) = Z.min 2 1.
Proof.
  eexists. split; [rewrite one_row_call; reflexivity|].
  destruct (sea_level_truncated_to_hours _ _ _ _ _ _
              (sea_level_request 55.66%R 12.56%R a_moment (a_moment + datetime.hours 2))
              200 (Some one_row_body) one_row_call)
    as (v & data & rows & Hv & Hdata & Hrows & Hlen & _).
  - apply list_elem_of_here.
  - reflexivity.
  - lia.
  - injection Hv as <-. simpl in Hdata. injection Hdata as <-.
    simpl in Hrows. injection Hrows as <-. exact Hlen.
Defined.

Lemma sea_level_lists_parallel_witness :
  length [VStr (F:=R) "2023-11-14T22:00:00+00:00"] = length [VFloat 1%R].
Proof.
  exact (sea_level_lists_parallel _ _ _ _ _ _ one_row_call).
Defined.

(** * Further properties of the tide tool *)

Section TideFailures.

Context {F : Type} `{PyFloat F}.

Lemma not_error_status (status : Z) :
  ~ 400 <= status < 600 -> is_error_status status = false.
Proof.
  intros Hs. unfold is_error_status.
  destruct (Z.leb_spec 400 status), (Z.ltb_spec status 600); simpl; try done. lia.
Qed.

(** X1.  A request that got no response (connection error, timeout), or
    a response that is no error but whose body is not JSON, makes both
    entry points raise [RequestException]: the [except] clause catches
    [HTTPError] only, and nothing is computed locally. *)
Theorem transport_failures_propagate (w : world F) (lat lon : F) (rq : request F) :
  (stormglass w rq = NoResponse
   \/ exists status, ~ 400 <= status < 600 /\ stormglass w rq = Response status None) ->
  (forall hours r sent,
     get_tide_sea_level lat lon hours w = (r, sent) -> rq ∈ sent ->
     r = Raise RequestException /\ sent = [rq])
  /\ (forall days r sent,
        get_tide_extremes lat lon days w = (r, sent) -> rq ∈ sent ->
        r = Raise RequestException /\ sent = [rq]).
Proof.
  intros Hresp. split.
  - intros hours r sent Hcall Hin.
    destruct (sea_level_sent _ _ _ _ _ _ _ Hcall Hin) as (_ & _ & -> & ->).
    destruct Hresp as [->|(status & Hs & ->)]; simpl; [done|].
    by rewrite not_error_status.
  - intros days r sent Hcall Hin.
    destruct (extremes_sent _ _ _ _ _ _ _ Hcall Hin) as (_ & _ & -> & ->).
    destruct Hresp as [->|(status & Hs & ->)]; simpl; [done|].
    by rewrite not_error_status.
Qed.

Lemma comprehension_all (k : string) (rows : list (value F)) :
  Forall (has_key k) rows -> exists xs, comprehension k rows = Ok xs.
Proof.
  induction 1 as [|row rows [x Hx] _ [xs IH]]; simpl; [eauto|].
  rewrite Hx, IH. simpl. eauto.
Qed.

(** Among objects, the first row without the key raises its [KeyError]. *)
Lemma comprehension_missing (k : string) (rows : list (value F)) :
  Forall is_object rows -> ~ Forall (has_key k) rows ->
  comprehension k rows = Raise (KeyError k).
Proof.
  induction 1 as [|row rows [items ->] _ IH]; intros Hnot.
  { destruct Hnot. constructor. }
  simpl. destruct (lookup_key k items) as [x|] eqn:Hk; simpl; [|done].
  rewrite IH; [done|]. intros Hall. apply Hnot. constructor; [|done].
  exists x. simpl. by rewrite Hk.
Qed.

(** X2.  On a response that is no error, a body without ["data"] makes
    both entry points raise [KeyError "data"]; [get_tide_sea_level]
    raises [KeyError "time"] when a row of objects lacks ["time"], and
    [KeyError "sg"] when all rows have ["time"] and one lacks ["sg"].
    Nothing is returned for the rows that were complete. *)
Theorem missing_keys_raise (w : world F) (lat lon : F) (rq : request F)
    (status : Z) (v : value F) :
  stormglass w rq = Response status (Some v) ->
  ~ 400 <= status < 600 ->
  (forall hours r sent items,
     get_tide_sea_level lat lon hours w = (r, sent) -> rq ∈ sent ->
     v = VDict items -> lookup_key "data" items = None ->
     r = Raise (KeyError "data"))
  /\ (forall days r sent items,
        get_tide_extremes lat lon days w = (r, sent) -> rq ∈ sent ->
        v = VDict items -> lookup_key "data" items = None ->
        r = Raise (KeyError "data"))
  /\ (forall hours r sent rows,
        get_tide_sea_level lat lon hours w = (r, sent) -> rq ∈ sent ->
        getitem v "data" = Ok (VList rows) -> Forall is_object rows ->
        ~ Forall (has_key "time") rows ->
        r = Raise (KeyError "time"))
  /\ (forall hours r sent rows,
        get_tide_sea_level lat lon hours w = (r, sent) -> rq ∈ sent ->
        getitem v "data" = Ok (VList rows) -> Forall is_object rows ->
        Forall (has_key "time") rows -> ~ Forall (has_key "sg") rows ->
        r = Raise (KeyError "sg")).
Proof.
  intros Hresp Hs%not_error_status. repeat split.
  - intros hours r sent items Hcall Hin -> Hnone.
    destruct (sea_level_sent _ _ _ _ _ _ _ Hcall Hin) as (_ & _ & _ & ->).
    rewrite Hresp. simpl. rewrite Hs. unfold sea_level_of_body. simpl.
    by rewrite Hnone.
  - intros days r sent items Hcall Hin -> Hnone.
    destruct (extremes_sent _ _ _ _ _ _ _ Hcall Hin) as (_ & _ & _ & ->).
    rewrite Hresp. simpl. rewrite Hs. simpl. by rewrite Hnone.
  - intros hours r sent rows Hcall Hin Hdata Hobj Hnot.
    destruct (sea_level_sent _ _ _ _ _ _ _ Hcall Hin) as (_ & _ & _ & ->).
    rewrite Hresp. simpl. rewrite Hs. unfold sea_level_of_body.
    rewrite Hdata. simpl. rewrite (comprehension_missing _ _ Hobj Hnot). reflexivity.
  - intros hours r sent rows Hcall Hin Hdata Hobj Htime Hnot.
    destruct (sea_level_sent _ _ _ _ _ _ _ Hcall Hin) as (_ & _ & _ & ->).
    rewrite Hresp. simpl. rewrite Hs. unfold sea_level_of_body.
    rewrite Hdata. simpl.
    destruct (comprehension_all "time" rows Htime) as [ts ->]. simpl.
    rewrite (comprehension_missing _ _ Hobj Hnot). reflexivity.
Qed.

(** X3.  On a response that is no error, [get_tide_extremes] returns
    whatever the body holds under ["data"], unchanged and unchecked: it
    need not even be a list. *)
Theorem extremes_passed_through (w : world F) (lat lon : F) (days : Z)
    (r : result (value F)) (sent : list (request F)) (rq : request F)
    (status : Z) (v data : value F) :
  get_tide_extremes lat lon days w = (r, sent) -> rq ∈ sent ->
  stormglass w rq = Response status (Some v) ->
  ~ 400 <= status < 600 ->
  getitem v "data" = Ok data ->
  r = Ok data.
Proof.
  intros Hcall Hin Hresp Hs%not_error_status Hdata.
  destruct (extremes_sent _ _ _ _ _ _ _ Hcall Hin) as (_ & _ & _ & ->).
  rewrite Hresp. simpl. by rewrite Hs.
Qed.

Lemma comprehension_lookup (k : string) (rows xs : list (value F)) (i : nat)
    (row : value F) :
  comprehension k rows = Ok xs -> rows !! i = Some row ->
  exists x, getitem row k = Ok x /\ xs !! i = Some x.
Proof.
  revert xs i. induction rows as [|row' rows IH]; intros xs i; simpl; [done|].
  destruct (getitem row' k) as [x|] eqn:Hx; simpl; [|done].
  destruct (comprehension k rows) as [xs'|]; simpl; [|done].
  intros [= <-]. destruct i as [|i]; simpl.
  - intros [= <-]. eauto.
  - intros Hrow. by apply IH.
Qed.

Lemma lookup_slice_to {A} (n : Z) (l : list A) (i : nat) :
  Z.of_nat i < n -> slice_to n l !! i = l !! i.
Proof.
  intros Hi. unfold slice_to.
  destruct (Z.leb_spec 0 n); [|lia]. apply lookup_take_lt. lia.
Qed.

(** X4.  On a response that is no error, the lists [get_tide_sea_level]
    returns hold, at each index below [hours], the ["time"] and the
    ["sg"] of the provider's row at that index: rows are neither
    reordered nor skipped. *)
Theorem sea_level_rows_in_order (w : world F) (lat lon : F) (hours : Z)
    (series : tide_dict (value F) (value F)) (sent : list (request F))
    (rq : request F) (status : Z) (v data : value F) (rows : list (value F)) :
  get_tide_sea_level lat lon hours w = (Ok series, sent) -> rq ∈ sent ->
  stormglass w rq = Response status (Some v) ->
  ~ 400 <= status < 600 ->
  getitem v "data" = Ok data -> iterate data = Ok rows ->
  forall (i : nat) (row : value F),
    Z.of_nat i < hours -> rows !! i = Some row ->
    exists t l,
      getitem row "time" = Ok t /\ getitem row "sg" = Ok l
      /\ time series !! i = Some t /\ sea_level series !! i = Some l.
Proof.
  intros Hcall Hin Hresp Hs%not_error_status Hdata Hrows i row Hi Hrow.
  destruct (sea_level_sent _ _ _ _ _ _ _ Hcall Hin) as (_ & _ & _ & Hr).
  rewrite Hresp in Hr. simpl in Hr. rewrite Hs in Hr.
  unfold sea_level_of_body in Hr. rewrite Hdata in Hr. simpl in Hr.
  rewrite Hrows in Hr. simpl in Hr.
  destruct (comprehension "time" rows) as [ts|] eqn:Hts; simpl in Hr; [|done].
  destruct (comprehension "sg" rows) as [ls|] eqn:Hls; simpl in Hr; [|done].
  injection Hr as ->. simpl.
  destruct (comprehension_lookup _ _ _ _ _ Hts Hrow) as (t & Ht & Hti).
  destruct (comprehension_lookup _ _ _ _ _ Hls Hrow) as (l & Hl & Hli).
  exists t, l. by rewrite !lookup_slice_to.
Qed.

(** The requests a call has sent. *)
Lemma sea_level_requests (lat lon : F) (hours : Z) (w : world F) :
  (get_tide_sea_level lat lon hours w).2 =
    if (1 <=? hours) && (hours <=? 240)
       && datetime.validb (utc_now w + datetime.hours hours)
    then [sea_level_request lat lon (utc_now w) (utc_now w + datetime.hours hours)]
    else [].
Proof.
  rewrite get_tide_sea_level_eq. unfold datetime.add.
  destruct ((1 <=? hours) && (hours <=? 240)); [|done].
  by destruct (datetime.validb (utc_now w + datetime.hours hours)).
Qed.

Lemma extremes_requests (lat lon : F) (days : Z) (w : world F) :
  (get_tide_extremes lat lon days w).2 =
    if (1 <=? days) && (days <=? 10)
       && datetime.validb (utc_now w + datetime.days days)
    then [extremes_request lat lon (utc_now w) (utc_now w + datetime.days days)]
    else [].
Proof.
  rewrite get_tide_extremes_eq. unfold datetime.add.
  destruct ((1 <=? days) && (days <=? 10)); [|done].
  by destruct (datetime.validb (utc_now w + datetime.days days)).
Qed.

Lemma in_range_valid (lo hi n : Z) (d : datetime.t) :
  (lo <=? n) && (n <=? hi) && datetime.validb d = false <->
  ~ lo <= n <= hi \/ ~ datetime.valid d.
Proof.
  rewrite <- validb_valid.
  destruct (Z.leb_spec lo n), (Z.leb_spec n hi), (datetime.validb d); simpl;
    split; try done; try (intros _; left; lia); try (intros _; by right).
  intros [?|?]; [lia|done].
Qed.

(** X5.  Whatever the provider does, a call sends at most one request,
    a GET of the endpoint of its kind with the coordinates and the
    window of the call, its two ends printed by [strftime] (to the hour
    for the sea level, to the day for the extremes; a year before 1000
    without padding); it sends none exactly when the argument is out
    of range or the end of the window is not a representable date. *)
Theorem at_most_one_request (w : world F) (lat lon : F) :
  (forall hours : Z,
     let sent := (get_tide_sea_level lat lon hours w).2 in
     (length sent <= 1)%nat
     /\ (forall rq, rq ∈ sent ->
           url rq = "https://api.stormglass.io/v2/tide/sea-level/point"
           /\ params rq =
                [("lat", VFloat lat); ("lng", VFloat lon);
                 ("start", VStr (datetime.strftime_hour (utc_now w)));
                 ("end", VStr (datetime.strftime_hour
                                 (utc_now w + datetime.hours hours)))])
     /\ (sent = [] <->
         ~ 1 <= hours <= 240
         \/ ~ datetime.valid (utc_now w + datetime.hours hours)))
  /\ (forall days : Z,
        let sent := (get_tide_extremes lat lon days w).2 in
        (length sent <= 1)%nat
        /\ (forall rq, rq ∈ sent ->
              url rq = "https://api.stormglass.io/v2/tide/extremes"
              /\ params rq =
                   [("lat", VFloat lat); ("lng", VFloat lon);
                    ("start", VStr (datetime.strftime_date (utc_now w)));
                    ("end", VStr (datetime.strftime_date
                                    (utc_now w + datetime.days days)))])
        /\ (sent = [] <->
            ~ 1 <= days <= 10
            \/ ~ datetime.valid (utc_now w + datetime.days days))).
Proof.
  split.
  - intros hours sent. subst sent. rewrite sea_level_requests.
    destruct ((1 <=? hours) && (hours <=? 240)
              && datetime.validb (utc_now w + datetime.hours hours)) eqn:Hc.
    + split; [simpl; lia|]. split.
      * by intros rq ->%list_elem_of_singleton.
      * split; [done|]. intros Hn%in_range_valid. congruence.
    + split; [simpl; lia|]. split.
      * by intros rq ?%elem_of_nil.
      * split; [|done]. intros _. by apply in_range_valid.
  - intros days sent. subst sent. rewrite extremes_requests.
    destruct ((1 <=? days) && (days <=? 10)
              && datetime.validb (utc_now w + datetime.days days)) eqn:Hc.
    + split; [simpl; lia|]. split.
      * by intros rq ->%list_elem_of_singleton.
      * split; [done|]. intros Hn%in_range_valid. congruence.
    + split; [simpl; lia|]. split.
      * by intros rq ?%elem_of_nil.
      * split; [|done]. intros _. by apply in_range_valid.
Qed.

End TideFailures.


Section WaveEdges.

Context {F : Type} `{PyFloat F}.

Lemma range_nonpositive (n : Z) : n <= 0 -> range n = [].
Proof. intros Hn. unfold range. by replace (Z.to_nat n) with 0%nat by lia. Qed.

(** From a valid start, the samples are representable unless the last
    one is past [datetime.max]. *)
Lemma representable_iff (hours : Z) (t0 : datetime.t) :
  datetime.valid t0 ->
  representable t0 (range hours) = true <->
  hours <= 0 \/ instant t0 (hours - 1) <= datetime.max.
Proof.
  intros Hv. split.
  - intros Hrep. destruct (Z.le_gt_cases hours 0) as [?|Hpos]; [by left|right].
    apply (representable_valid hours t0 (hours - 1)) in Hrep; [|lia].
    apply Hrep.
  - intros [Hn|Hlast].
    + by rewrite range_nonpositive.
    + by apply representable_range.
Qed.

(** X6.  For any [hours], also zero, negative or above 240, and a valid
    start time: [_sine_wave_tide] raises exactly when [hours >= 1] and
    the last sample [t0 + (hours - 1) hours] is past [datetime.max], and
    then it raises [OverflowError]; otherwise it returns two lists of
    [max 0 hours] entries, empty ones for [hours <= 0]. *)
Theorem sine_wave_any_hours (hours : Z) (t0 : datetime.t) :
  datetime.valid t0 ->
  ((exists e, _sine_wave_tide (F:=F) hours t0 = Raise e)
     <-> 1 <= hours /\ datetime.max < instant t0 (hours - 1))
  /\ (forall e, _sine_wave_tide (F:=F) hours t0 = Raise e -> e = OverflowError)
  /\ (forall tide : tide_dict string F,
        _sine_wave_tide hours t0 = Ok tide ->
        len (time tide) = Z.max 0 hours /\ len (sea_level tide) = Z.max 0 hours)
  /\ (hours <= 0 ->
      _sine_wave_tide (F:=F) hours t0 = Ok {| time := []; sea_level := [] |}).
Proof.
  intros Hv. pose proof (representable_iff hours t0 Hv) as Hrep.
  rewrite _sine_wave_tide_eq.
  destruct (representable t0 (range hours)) eqn:Hr.
  - destruct Hrep as [Hrep _]. specialize (Hrep eq_refl).
    split; [split|].
    + by intros [e ?].
    + lia.
    + split; [done|]. split.
      * intros tide [= <-]. simpl. unfold len.
        rewrite !length_fmap, !length_range. lia.
      * intros Hn. by rewrite range_nonpositive.
  - assert (~ (hours <= 0 \/ instant t0 (hours - 1) <= datetime.max)) as Hno.
    { intros Hc. by apply Hrep in Hc. }
    split; [split|].
    + intros _. lia.
    + eauto.
    + split; [by intros e [= <-]|]. split; [done|]. intros Hn. lia.
Qed.

End WaveEdges.

(** * WeatherTool *)

Section WeatherProperties.

Context {F : Type} `{PyFloat F}.

Variable open_meteo : request F -> response F.

(** X9.  [get_wind_forecast] raises the [AssertionError] of its range
    check exactly when [hours] is outside [1, 168], and then it has
    sent nothing; otherwise it sends exactly one GET to Open-Meteo,
    whatever comes back. *)
Theorem wind_range_is_checked (lat lon : F) (hours : Z) :
  ((exists msg, (get_wind_forecast open_meteo lat lon hours).1
                = Raise (AssertionError msg))
     <-> ~ 1 <= hours <= 168)
  /\ (~ 1 <= hours <= 168 -> (get_wind_forecast open_meteo lat lon hours).2 = [])
  /\ (1 <= hours <= 168 ->
      (get_wind_forecast open_meteo lat lon hours).2 = [wind_request lat lon]).
Proof.
  unfold get_wind_forecast.
  destruct (Z.leb_spec 1 hours), (Z.leb_spec hours 168); simpl;
    try (split; [split; [intros _; lia|eauto]|split; [done|lia]]).
  split; [split; [|lia]|split; [lia|done]].
  intros [msg Hmsg]. exfalso. revert Hmsg.
  destruct (open_meteo (wind_request lat lon)) as [|status body]; [done|].
  unfold raise_for_status.
  destruct ((400 <=? status) && (status <? 600)); simpl; [done|].
  destruct body as [v|]; simpl; [|done].
  repeat match goal with
  | |- context [getitem ?a ?k] =>
      let Hg := fresh "Hg" in
      destruct (getitem a k) eqn:Hg; simpl;
      [|apply getitem_raises in Hg; intros [= ->]; done]
  | |- context [slice_value ?n ?a] =>
      let Hs := fresh "Hs" in
      destruct (slice_value n a) eqn:Hs; simpl;
      [|destruct a; simpl in Hs; congruence]
  end.
  done.
Qed.

(** X10.  When Open-Meteo answers with lists, each returned list is the
    first [hours] entries of the provider's list of the same name, or
    all of it when it is shorter: the three lengths are
    [min hours (len l)] each, and need not agree. *)
Theorem wind_lists_are_prefixes (lat lon : F) (hours : Z) (status : Z)
    (decoded hourly : value F) (times speeds directions : list (value F)) :
  1 <= hours <= 168 ->
  ~ 400 <= status < 600 ->
  open_meteo (wind_request lat lon) = Response status (Some decoded) ->
  getitem decoded "hourly" = Ok hourly ->
  getitem hourly "time" = Ok (VList times) ->
  getitem hourly "windspeed_10m" = Ok (VList speeds) ->
  getitem hourly "winddirection_10m" = Ok (VList directions) ->
  (get_wind_forecast open_meteo lat lon hours).1
    = Ok {| forecast_time := VList (take (Z.to_nat hours) times);
            windspeed_10m := VList (take (Z.to_nat hours) speeds);
            winddirection_10m := VList (take (Z.to_nat hours) directions) |}
  /\ len (take (Z.to_nat hours) times) = Z.min hours (len times)
  /\ len (take (Z.to_nat hours) speeds) = Z.min hours (len speeds)
  /\ len (take (Z.to_nat hours) directions) = Z.min hours (len directions).
Proof.
  intros Hh Hs Hresp Hhourly Ht Hw Hd. unfold get_wind_forecast.
  destruct (Z.leb_spec 1 hours), (Z.leb_spec hours 168); try lia. simpl.
  rewrite Hresp. unfold raise_for_status.
  destruct (Z.leb_spec 400 status), (Z.ltb_spec status 600); simpl; try lia;
    rewrite Hhourly; simpl; rewrite Ht; simpl; rewrite Hw; simpl; rewrite Hd;
    simpl; unfold slice_to, len; destruct (Z.leb_spec 0 hours); try lia;
    rewrite !length_take; (split; [done|lia]).
Qed.

(** X11.  Nothing is recovered here: an HTTP error status, 402 as any
    other, raises the [HTTPError] of that status; no response raises
    [RequestException]; a body without ["hourly"] raises
    [KeyError "hourly"]. *)
Theorem wind_failures_propagate (lat lon : F) (hours : Z) :
  1 <= hours <= 168 ->
  (forall status body,
     400 <= status < 600 ->
     open_meteo (wind_request lat lon) = Response status body ->
     (get_wind_forecast open_meteo lat lon hours).1 = Raise (HTTPError status))
  /\ (open_meteo (wind_request lat lon) = NoResponse ->
      (get_wind_forecast open_meteo lat lon hours).1 = Raise RequestException)
  /\ (forall status items,
        ~ 400 <= status < 600 ->
        open_meteo (wind_request lat lon) = Response status (Some (VDict items)) ->
        lookup_key "hourly" items = None ->
        (get_wind_forecast open_meteo lat lon hours).1 = Raise (KeyError "hourly")).
Proof.
  intros Hh. unfold get_wind_forecast.
  destruct (Z.leb_spec 1 hours), (Z.leb_spec hours 168); try lia. simpl.
  repeat split.
  - intros status body Hs ->. unfold raise_for_status.
    destruct (Z.leb_spec 400 status), (Z.ltb_spec status 600); simpl; try lia. done.
  - by intros ->.
  - intros status items Hs -> Hnone. unfold raise_for_status.
    destruct (Z.leb_spec 400 status), (Z.ltb_spec status 600); simpl; try lia;
      by rewrite Hnone.
Qed.

End WeatherProperties.


(** * UserProfileTool *)

Section ProfileProperties.

Context {F : Type} `{PyFloat F}.

Variable dumps : list (string * value F) -> string.

Lemma lookup_dict_set (k k' : string) (v : value F) (items : list (string * value F)) :
  lookup_key k' (dict_set k v items) =
    if String.eqb k' k then Some v else lookup_key k' items.
Proof.
  induction items as [|[k0 v0] items IH]; simpl.
  - by destruct (String.eqb k' k).
  - destruct (String.eqb_spec k k0) as [->|Hk]; simpl.
    + by destruct (String.eqb k' k0).
    + destruct (String.eqb_spec k' k0) as [->|Hk'].
      * destruct (String.eqb_spec k0 k); [congruence|done].
      * apply IH.
Qed.

Lemma keys_dict_set (k : string) (v : value F) (items : list (string * value F)) :
  fst <$> dict_set k v items =
    if decide (k ∈ fst <$> items) then fst <$> items else (fst <$> items) ++ [k].
Proof.
  induction items as [|[k0 v0] items IH].
  - case_decide as Hin; [by apply elem_of_nil in Hin|done].
  - cbn [dict_set]. destruct (String.eqb_spec k k0) as [->|Hk].
    + rewrite decide_True by (rewrite fmap_cons; apply list_elem_of_here). done.
    + rewrite !fmap_cons, IH. cbn [fst].
      destruct (decide (k ∈ fst <$> items)) as [Hin|Hin].
      * rewrite decide_True by (by apply list_elem_of_further). done.
      * rewrite decide_False; [done|].
        intros [?|?]%elem_of_cons; done.
Qed.

(** X12.  A profile that was set is the one [get_profile] returns for
    that user, the profiles of the other users are as before, and a
    user without profile gets the empty dictionary; [set_profile]
    answers [{"status": "ok"}] and leaves in the file the text of the
    profiles it holds in memory. *)
Theorem profile_set_then_get (s : store F) (user_id : string) (profile : value F) :
  let s' := (set_profile dumps user_id profile s).2 in
  get_profile user_id s' = profile
  /\ (forall other, other <> user_id -> get_profile other s' = get_profile other s)
  /\ (forall other, lookup_key other (profiles s) = None ->
        get_profile other s = VDict [])
  /\ (set_profile dumps user_id profile s).1 = VDict [("status", VStr "ok")]
  /\ STORE_PATH s' = Some (dumps (profiles s')).
Proof.
  simpl. unfold get_profile, dict_get. simpl. repeat split.
  - rewrite lookup_dict_set. by rewrite String.eqb_refl.
  - intros other Hne. rewrite lookup_dict_set.
    by destruct (String.eqb_spec other user_id).
  - by intros other ->.
Qed.

Lemma serve_all_snoc (calls : list (profile_call F)) (c : profile_call F)
    (s : store F) :
  serve_all dumps (calls ++ [c]) s = serve dumps (serve_all dumps calls s) c.
Proof. unfold serve_all. by rewrite foldl_app. Qed.

Lemma last_set_snoc (user_id : string) (calls : list (profile_call F))
    (c : profile_call F) :
  last_set user_id (calls ++ [c]) =
    match c with
    | SetProfile u p =>
        if String.eqb user_id u then Some p else last_set user_id calls
    | GetProfile _ => last_set user_id calls
    end.
Proof.
  induction calls as [|c' calls IH]; simpl.
  - destruct c as [u|u p]; [done|]. by destruct (String.eqb user_id u).
  - rewrite IH. destruct c as [u|u p].
    + done.
    + by destruct (String.eqb user_id u).
Qed.

(** X13.  After any sequence of calls, [get_profile] returns for each
    user the profile of the last [set_profile] for that user, or what
    the store held at the start when there was none; the user ids stay
    distinct; and once a profile has been set, the file holds the text
    of the profiles in memory. *)
Theorem profiles_last_write_wins (calls : list (profile_call F)) (s : store F)
    (user_id : string) :
  get_profile user_id (serve_all dumps calls s)
    = default (get_profile user_id s) (last_set user_id calls)
  /\ (NoDup (fst <$> profiles s) ->
      NoDup (fst <$> profiles (serve_all dumps calls s)))
  /\ (existsb is_set calls = true ->
      STORE_PATH (serve_all dumps calls s)
        = Some (dumps (profiles (serve_all dumps calls s)))).
Proof.
  induction calls as [|c calls IH] using rev_ind; [done|].
  rewrite serve_all_snoc, last_set_snoc, existsb_app.
  destruct IH as (IHget & IHdup & IHfile).
  destruct c as [u|u p]; simpl.
  - rewrite orb_false_r. done.
  - unfold get_profile, dict_get in *. simpl. rewrite lookup_dict_set.
    repeat split.
    + by destruct (String.eqb user_id u).
    + intros Hdup%IHdup. rewrite keys_dict_set.
      destruct (decide (u ∈ fst <$> profiles (serve_all dumps calls s)));
        [done|].
      apply NoDup_app. repeat split; [done| |apply NoDup_singleton].
      intros k Hk ->%list_elem_of_singleton. done.
Qed.

End ProfileProperties.


(** * WindWizard *)

Section AgentProperties.

Context {F : Type} `{PyFloat F} {N : Type} `{!@PyNumber F N}.

(** One step of the agent: a failed outcome ends the run. *)
Ltac agent_step :=
  match goal with
  | |- context [match ?x with Done _ => _ | Failed _ => _ end] =>
      let E := fresh "E" in destruct x eqn:E; simpl
  end.

(** X14.  Whenever [compute_stoke] returns, the score lies in
    [0, 100], the kite is one of the four recommendations, the profile
    is the one the profile tool answered, and the message quotes that
    score and that kite. *)
Theorem stoke_is_clamped (t : tools F) (user_id : string) (lat lon : F)
    (hours : Z) (alert : bool) (report : stoke_report F)
    (calls : list (tool_call F)) :
  compute_stoke (N:=N) user_id lat lon hours alert t = (Done report, calls) ->
  0 <= stoke report <= 100
  /\ kite report ∈ kites
  /\ profile_client t user_id = Done (profile report)
  /\ exists wind tide : string,
       message report =
         "Avg wind " +:+ wind +:+ " kt, tide " +:+ tide +:+ "m. Stoke "
           +:+ pretty (stoke report) +:+ "/100. Use " +:+ kite report +:+ ".".
Proof.
  unfold compute_stoke, mbind, agent_bind, predict_profile, predict_weather,
    predict_tide, predict_notify, pure, mret, agent_ret. simpl.
  repeat (agent_step; [|done]).
  match goal with |- context [if ?c then _ else _] => destruct c end; simpl.
  all: repeat (agent_step; [|done]).
  all: intros [= <- _]; simpl.
  all: (split; [lia|]); (split; [|split; [done|eauto]]).
  all: unfold kites; repeat match goal with
       | |- context [num_lt ?a ?b] => destruct (num_lt a b)
       end; repeat first [apply list_elem_of_here | apply list_elem_of_further].
Qed.


(** The calls of a run that gets as far as the notification. *)
Lemma value_get_dict (v x : value F) (k : string) (default : value F) :
  value_get v k default = Done x -> exists items, v = VDict items.
Proof. destruct v; simpl; intros [= <-]; eauto. Qed.

(** X15.  A run that returns has asked the profile, the weather and the
    tide tool once each, in this order, with the arguments it was
    given; it has sent an SMS exactly when [alert] is set and the score
    is at least 60, once, after the three, to the ["phone"] of the
    profile (the empty string when there is none) and with the message
    it returns. *)
Theorem sms_only_above_threshold (t : tools F) (user_id : string) (lat lon : F)
    (hours : Z) (alert : bool) (report : stoke_report F)
    (calls : list (tool_call F)) :
  compute_stoke (N:=N) user_id lat lon hours alert t = (Done report, calls) ->
  exists items : list (string * value F),
    profile report = VDict items
    /\ calls =
         [GetProfileCall user_id; WindForecastCall lat lon hours;
          SeaLevelCall lat lon hours]
         ++ (if alert && (60 <=? stoke report)
             then [SendSMSCall (dict_get items "phone" (VStr "")) (message report)]
             else []).
Proof.
  unfold compute_stoke, mbind, agent_bind, predict_profile, predict_weather,
    predict_tide, predict_notify, pure, mret, agent_ret. simpl.
  destruct (profile_client t user_id) as [p|] eqn:Hp; simpl; [|done].
  destruct p; simpl; try done.
  repeat (agent_step; [|done]).
  match goal with |- context [if ?c then _ else _] => destruct c eqn:Hc end; simpl.
  all: repeat (agent_step; [|done]).
  all: intros [= <- <-]; simpl; rewrite Hc; eauto.
Qed.

(** X16.  However a run ends, the calls it made are the first ones of
    profile, weather, tide, SMS, in this order: no tool is asked twice
    or out of turn, and no SMS is sent unless [alert] is set. *)
Theorem calls_are_in_order (t : tools F) (user_id : string) (lat lon : F)
    (hours : Z) (alert : bool) :
  let calls := (compute_stoke (N:=N) user_id lat lon hours alert t).2 in
  let asked := [GetProfileCall user_id; WindForecastCall lat lon hours;
                SeaLevelCall lat lon hours] in
  (exists n : nat, (0 < n)%nat /\ calls = take n asked)
  \/ (alert = true /\ exists to msg, calls = asked ++ [SendSMSCall to msg]).
Proof.
  unfold compute_stoke, mbind, agent_bind, predict_profile, predict_weather,
    predict_tide, predict_notify, pure, mret, agent_ret. simpl.
  repeat (agent_step; [|left; first [by exists 1%nat; split; [lia|]
                                       |by exists 2%nat; split; [lia|]
                                       |by exists 3%nat; split; [lia|]]]).
  destruct alert; simpl.
  - match goal with |- context [if ?c then _ else _] => destruct c end; simpl.
    + repeat (agent_step;
              [|solve [left; exists 3%nat; split; [lia|done]
                      |right; split; [done|]; eauto]]).
      right; split; [done|]; eauto.
    + left. exists 3%nat. split; [lia|done].
  - left. exists 3%nat. split; [lia|done].
Qed.

(** X17.  A failure ends the run where it occurs.  When the profile
    tool fails, or answers with something that is no dictionary,
    nothing else is asked; when the forecast has no ["windspeed_10m"],
    or no mean can be taken of it, the tide tool is never asked; and a
    failure of the notification is a failure of the run, with all four
    calls made. *)
Theorem failures_end_the_run (t : tools F) (user_id : string) (lat lon : F)
    (hours : Z) (alert : bool) :
  let run := compute_stoke (N:=N) user_id lat lon hours alert t in
  (forall f, profile_client t user_id = Failed f ->
     run = (Failed f, [GetProfileCall user_id]))
  /\ (forall p, profile_client t user_id = Done p ->
        (forall items, p <> VDict items) ->
        run = (Failed AttributeError, [GetProfileCall user_id]))
  /\ (forall items, profile_client t user_id = Done (VDict items) ->
      (forall f, weather_client t lat lon hours = Failed f ->
         run = (Failed f, [GetProfileCall user_id; WindForecastCall lat lon hours]))
      /\ (forall weather e, weather_client t lat lon hours = Done weather ->
            getitem weather "windspeed_10m" = Raise e ->
            run = (Failed (SubscriptError e),
                   [GetProfileCall user_id; WindForecastCall lat lon hours]))
      /\ (forall weather wind, weather_client t lat lon hours = Done weather ->
            getitem weather "windspeed_10m" = Ok wind ->
            mean (N:=N) wind = None ->
            run = (Failed MeanError,
                   [GetProfileCall user_id; WindForecastCall lat lon hours])))
  /\ (forall report calls items f,
        compute_stoke (N:=N) user_id lat lon hours false t = (Done report, calls) ->
        60 <= stoke report ->
        profile report = VDict items ->
        notify_client t (dict_get items "phone" (VStr "")) (message report)
          = Failed f ->
        compute_stoke (N:=N) user_id lat lon hours true t
          = (Failed f,
             calls ++ [SendSMSCall (dict_get items "phone" (VStr ""))
                         (message report)])).
Proof.
  unfold compute_stoke, mbind, agent_bind, predict_profile, predict_weather,
    predict_tide, predict_notify, pure, mret, agent_ret. simpl.
  split; [by intros f ->|].
  split.
  { intros p -> Hp. destruct p; simpl; try done. by destruct (Hp items). }
  split.
  { intros items ->. simpl. split; [by intros f ->|].
    split.
    - intros weather e -> He. simpl. unfold subscript. by rewrite He.
    - intros weather wind -> Hw Hm. simpl. unfold subscript, mean_of.
      rewrite Hw. simpl. by rewrite Hm. }
  intros report calls items f. 
  destruct (profile_client t user_id) as [p|] eqn:Hp; simpl; [|done].
  destruct p; simpl; try done.
  repeat (agent_step; [|done]).
  intros [= <- <-]; simpl. intros Hscore [= <-].
  match goal with
  | |- context [60 <=? ?s] => destruct (Z.leb_spec 60 s); [|lia]
  end.
  simpl. by intros ->.
Qed.

End AgentProperties.


(** ** The further properties at concrete calls *)

Lemma transport_failures_propagate_witness :
  get_tide_sea_level 55.66%R 12.56%R 24 (answering a_moment NoResponse)
    = (Raise RequestException,
       [sea_level_request 55.66%R 12.56%R a_moment (a_moment + datetime.hours 24)])
  /\ (get_tide_extremes 55.66%R 12.56%R 3 (answering a_moment (Response 200 None))).1
     = Raise RequestException.
Proof.
  split.
  - destruct (transport_failures_propagate (answering a_moment NoResponse)
                55.66%R 12.56%R
                (sea_level_request 55.66%R 12.56%R a_moment
                   (a_moment + datetime.hours 24)))
      as [Hsea _]; [by left|].
    edestruct (Hsea 24) as [Hr _].
    + apply answering_sea_level; [lia|reflexivity].
    + apply list_elem_of_here.
    + rewrite answering_sea_level by (lia || reflexivity). by rewrite Hr.
  - destruct (transport_failures_propagate (answering a_moment (Response 200 None))
                55.66%R 12.56%R
                (extremes_request 55.66%R 12.56%R a_moment
                   (a_moment + datetime.days 3)))
      as [_ Hext].
    { right. exists 200. split; [lia|reflexivity]. }
    edestruct (Hext 3) as [Hr _].
    + apply answering_extremes; [lia|reflexivity].
    + apply list_elem_of_here.
    + rewrite answering_extremes by (lia || reflexivity). by rewrite Hr.
Defined.

Lemma missing_keys_raise_witness :
  (get_tide_sea_level 55.66%R 12.56%R 24
     (answering a_moment (Response 200 (Some no_data_body)))).1
    = Raise (KeyError "data")
  /\ (get_tide_sea_level 55.66%R 12.56%R 24
        (answering a_moment
           (Response 200 (Some (VDict [("data", VList [VDict [("sg", VFloat 1%R)]])]))))).1
     = Raise (KeyError "time").
Proof.
  split.
  - destruct (missing_keys_raise
                (answering a_moment (Response 200 (Some no_data_body)))
                55.66%R 12.56%R
                (sea_level_request 55.66%R 12.56%R a_moment
                   (a_moment + datetime.hours 24))
                200 no_data_body eq_refl ltac:(lia)) as (Hdata & _).
    rewrite answering_sea_level by (lia || reflexivity).
    eapply (Hdata 24).
    + apply answering_sea_level; [lia|reflexivity].
    + apply list_elem_of_here.
    + reflexivity.
    + reflexivity.
  - destruct (missing_keys_raise
                (answering a_moment
                   (Response 200
                      (Some (VDict [("data", VList [VDict [("sg", VFloat 1%R)]])]))))
                55.66%R 12.56%R
                (sea_level_request 55.66%R 12.56%R a_moment
                   (a_moment + datetime.hours 24))
                200 _ eq_refl ltac:(lia)) as (_ & _ & Htime & _).
    rewrite answering_sea_level by (lia || reflexivity).
    eapply (Htime 24).
    + apply answering_sea_level; [lia|reflexivity].
    + apply list_elem_of_here.
    + reflexivity.
    + constructor; [by eexists|constructor].
    + intros Hall. inversion Hall as [|? ? [x Hx] _]. discriminate Hx.
Defined.

Lemma extremes_passed_through_witness :
  (get_tide_extremes 55.66%R 12.56%R 3
     (answering a_moment (Response 200 (Some text_data_body)))).1
  = Ok (VStr "none").
Proof.
  rewrite answering_extremes by (lia || reflexivity).
  eapply (extremes_passed_through
            (answering a_moment (Response 200 (Some text_data_body)))
            55.66%R 12.56%R 3 _ _
            (extremes_request 55.66%R 12.56%R a_moment (a_moment + datetime.days 3))
            200 text_data_body).
  - apply answering_extremes; [lia|reflexivity].
  - apply list_elem_of_here.
  - reflexivity.
  - lia.
  - reflexivity.
Defined.

Lemma sea_level_rows_in_order_witness :
  exists t l : value R,
    t = VStr "2023-11-14T22:00:00+00:00" /\ l = VFloat 1%R
    /\ [VStr (F:=R) "2023-11-14T22:00:00+00:00"] !! 0%nat = Some t
    /\ [VFloat 1%R] !! 0%nat = Some l.
Proof.
  destruct (sea_level_rows_in_order _ _ _ _ _ _
              (sea_level_request 55.66%R 12.56%R a_moment (a_moment + datetime.hours 2))
              200 one_row_body
              (VList [VDict [("time", VStr "2023-11-14T22:00:00+00:00");
                             ("sg", VFloat 1%R)]])
              [VDict [("time", VStr "2023-11-14T22:00:00+00:00"); ("sg", VFloat 1%R)]]
              one_row_call)
    with (i := 0%nat)
         (row := VDict [("time", VStr (F:=R) "2023-11-14T22:00:00+00:00");
                        ("sg", VFloat 1%R)])
    as (t & l & Ht & Hl & Hti & Hli).
  - apply list_elem_of_here.
  - reflexivity.
  - lia.
  - reflexivity.
  - reflexivity.
  - lia.
  - reflexivity.
  - exists t, l. simpl in Ht, Hl. injection Ht as <-. injection Hl as <-. done.
Defined.

Lemma at_most_one_request_witness :
  (length (get_tide_sea_level 55.66%R 12.56%R 24
             (answering a_moment (Response 402 None))).2 <= 1)%nat
  /\ (get_tide_sea_level 55.66%R 12.56%R 24
        (answering datetime.max (Response 402 None))).2 = []
  /\ (forall rq,
        rq ∈ (get_tide_sea_level 55.66%R 12.56%R 1
                (answering year_999 (Response 402 None))).2 ->
        params rq = [("lat", VFloat 55.66%R); ("lng", VFloat 12.56%R);
                     ("start", VStr "999-12-31T23");
                     ("end", VStr "1000-01-01T00")])
  /\ (forall rq,
        rq ∈ (get_tide_extremes 55.66%R 12.56%R 1
                (answering year_999 (Response 402 None))).2 ->
        params rq = [("lat", VFloat 55.66%R); ("lng", VFloat 12.56%R);
                     ("start", VStr "999-12-31");
                     ("end", VStr "1000-01-01")]).
Proof.
  destruct (at_most_one_request (answering a_moment (Response 402 None))
              55.66%R 12.56%R) as [Hsea _].
  destruct (at_most_one_request (answering datetime.max (Response 402 None))
              55.66%R 12.56%R) as [Hmax _].
  destruct (at_most_one_request (answering year_999 (Response 402 None))
              55.66%R 12.56%R) as [Hhour Hdate].
  split; [apply (Hsea 24)|]. split.
  - apply (Hmax 24). right. unfold answering. cbn [utc_now].
    unfold datetime.valid, datetime.min, datetime.max, datetime.hours,
      datetime.US_PER_HOUR, datetime.US_PER_SECOND. lia.
  - split.
    + intros rq Hrq. destruct (Hhour 1) as (_ & Hparams & _).
      destruct (Hparams rq Hrq) as [_ ->].
      replace (datetime.strftime_hour
                 (utc_now (answering year_999 (Response 402 None))))
        with "999-12-31T23" by (vm_compute; reflexivity).
      replace (datetime.strftime_hour
                 (utc_now (answering year_999 (Response 402 None))
                  + datetime.hours 1))
        with "1000-01-01T00" by (vm_compute; reflexivity).
      reflexivity.
    + intros rq Hrq. destruct (Hdate 1) as (_ & Hparams & _).
      destruct (Hparams rq Hrq) as [_ ->].
      replace (datetime.strftime_date
                 (utc_now (answering year_999 (Response 402 None))))
        with "999-12-31" by (vm_compute; reflexivity).
      replace (datetime.strftime_date
                 (utc_now (answering year_999 (Response 402 None))
                  + datetime.days 1))
        with "1000-01-01" by (vm_compute; reflexivity).
      reflexivity.
Defined.

Lemma sine_wave_any_hours_witness :
  _sine_wave_tide (F:=R) 0 a_moment = Ok {| time := []; sea_level := [] |}
  /\ (exists e, _sine_wave_tide (F:=R) 2 datetime.max = Raise e).
Proof.
  split.
  - apply (sine_wave_any_hours (F:=R) 0 a_moment a_moment_valid). lia.
  - apply (sine_wave_any_hours (F:=R) 2 datetime.max).
    + unfold datetime.valid, datetime.min, datetime.max. lia.
    + split; [lia|]. vm_compute. reflexivity.
Defined.

(** The integer part of a real number that is an integer. *)
Lemma Int_part_IZR (z : Z) : Int_part (IZR z) = z.
Proof. symmetry. apply Int_part_spec. lra. Qed.

Lemma trunc_IZR (z : Z) : trunc (IZR z) = z.
Proof.
  unfold trunc. destruct (Rle_dec 0 (IZR z)) as [Hz|Hz].
  - apply Int_part_IZR.
  - rewrite <- opp_IZR, Int_part_IZR. lia.
Qed.

Lemma round_half_even_IZR (z : Z) : round_half_even (IZR z) = z.
Proof.
  unfold round_half_even. rewrite Int_part_IZR.
  destruct (Rlt_dec _ _) as [|Hge]; [done|]. exfalso. lra.
Qed.

(** The digits of a number that is not negative and has no more than
    [d] decimals. *)
Lemma format_real_exact (d : nat) (x : R) (m : Z) :
  (0 <= x)%R -> (x * 10 ^ d)%R = IZR m ->
  format_real d x =
    pretty (m / 10 ^ Z.of_nat d)
      +:+ match d with
          | O => ""
          | S _ => "." +:+ datetime.zpad d (m mod 10 ^ Z.of_nat d)
          end.
Proof.
  intros Hx Hm. unfold format_real.
  rewrite Rabs_pos_eq, Hm, round_half_even_IZR by done.
  destruct (Rlt_dec x 0) as [Hlt|_]; [exfalso; lra|]. done.
Qed.

Lemma wind_lists_are_prefixes_witness :
  (get_wind_forecast (fun _ => Response 200 (Some two_hours_body))
     55.66%R 12.56%R 2).1
  = Ok {| forecast_time := VList [VStr "2025-06-08T00:00"; VStr "2025-06-08T01:00"];
          windspeed_10m := VList [VFloat 14.5%R; VFloat 15.5%R];
          winddirection_10m := VList [VInt 270; VInt 265] |}.
Proof.
  edestruct (wind_lists_are_prefixes (fun _ => Response 200 (Some two_hours_body))
               55.66%R 12.56%R 2 200 two_hours_body) as [Hr _];
    [lia|lia|reflexivity|reflexivity|reflexivity|reflexivity|reflexivity|].
  exact Hr.
Defined.

Lemma wind_failures_propagate_witness :
  (get_wind_forecast (fun _ => Response 402 (Some two_hours_body))
     55.66%R 12.56%R 6).1
  = Raise (HTTPError 402).
Proof.
  destruct (wind_failures_propagate (fun _ => Response 402 (Some two_hours_body))
              55.66%R 12.56%R 6 ltac:(lia)) as [Hhttp _].
  apply (Hhttp 402 (Some two_hours_body)); [lia|reflexivity].
Defined.

(** What [compute_stoke] returns with the tools [breezy]. *)
Lemma breezy_run :
  exists report : stoke_report R,
    compute_stoke (N:=R) "ada" 55.66%R 12.56%R 6 true breezy
      = (Done report,
         [GetProfileCall "ada"; WindForecastCall 55.66%R 12.56%R 6;
          SeaLevelCall 55.66%R 12.56%R 6;
          SendSMSCall (VStr "+4512345678") (message report)])
    /\ stoke report = 70 /\ kite report = "9m kite"
    /\ message report
       = "Avg wind 15.0 kt, tide 1.00m. Stoke 70/100. Use 9m kite.".
Proof.
  eexists {| profile := _; stoke := _; kite := _; message := _ |}.
  unfold compute_stoke, mbind, agent_bind, predict_profile,
    predict_weather, predict_tide, predict_notify, pure, mret, agent_ret,
    breezy, to_int, mean_of, subscript, value_get.
  cbn [profile_client weather_client tide_client notify_client dict_get
       lookup_key getitem String.eqb Ascii.eqb Bool.eqb mean int_of RealNumber
       real_mean mapM number_of mbind option_bind mret option_ret fold_right
       length app].
  replace (INR 2) with 2%R by (simpl; lra).
  match goal with
  | |- context [trunc ?x] => replace (trunc x) with 70
  end.
  2:{ rewrite <- (trunc_IZR 70). f_equal. cbn [num_add num_mul RealNumber]. lra. }
  cbn [num_lt RealNumber].
  destruct (Rlt_dec _ 10) as [Hlt|_]; [exfalso; lra|].
  destruct (Rlt_dec _ 15) as [Hlt|_]; [exfalso; lra|].
  destruct (Rlt_dec _ 20) as [_|Hge]; [|exfalso; lra].
  change (100 `min` (0 `max` 70)) with 70.
  cbn [Z.leb Z.compare Pos.compare Pos.compare_cont andb notify_client app
       stoke kite message].
  split; [reflexivity|split; [reflexivity|split; [reflexivity|]]].
  cbn [format_fixed RealNumber].
  rewrite (format_real_exact 1 _ 150), (format_real_exact 2 _ 100)
    by (simpl; lra).
  reflexivity.
Qed.

Lemma stoke_is_clamped_witness :
  exists (report : stoke_report R) (calls : list (tool_call R)),
    compute_stoke (N:=R) "ada" 55.66%R 12.56%R 6 true breezy = (Done report, calls)
    /\ 0 <= stoke report <= 100
    /\ kite report ∈ kites.
Proof.
  destruct breezy_run as (report & Hrun & _).
  eexists report, _. split; [exact Hrun|].
  destruct (stoke_is_clamped breezy "ada" 55.66%R 12.56%R 6 true report _ Hrun)
    as (Hstoke & Hkite & _).
  done.
Defined.

Lemma sms_only_above_threshold_witness :
  exists (report : stoke_report R) (calls : list (tool_call R)),
    compute_stoke (N:=R) "ada" 55.66%R 12.56%R 6 true breezy = (Done report, calls)
    /\ 60 <= stoke report
    /\ exists items : list (string * value R),
         profile report = VDict items
         /\ calls =
              [GetProfileCall "ada"; WindForecastCall 55.66%R 12.56%R 6;
               SeaLevelCall 55.66%R 12.56%R 6;
               SendSMSCall (dict_get items "phone" (VStr "")) (message report)].
Proof.
  destruct breezy_run as (report & Hrun & Hstoke & _).
  eexists report, _. split; [exact Hrun|]. split; [lia|].
  destruct (sms_only_above_threshold breezy "ada" 55.66%R 12.56%R 6 true report
              _ Hrun) as (items & Hprofile & Hcalls).
  exists items. split; [exact Hprofile|].
  rewrite Hstoke in Hcalls. exact Hcalls.
Defined.
